(** * Task expansion and AI provider resolution

    A shallow embedding of two JavaScript modules of the task-master MCP
    server:

    - [mcp-server/src/core/utils/ai-client-utils.js]: client construction
      from the session / process environment and the fallback policy of
      [getBestAvailableAIModel] (module [AiClientUtils]);
    - the direct function [expandTaskDirect] (expand-task.js), which
      expands one task of tasks.json into subtasks (module [ExpandTask]).

    JavaScript strings are Rocq strings (the bytes of their UTF-8 form),
    integers are [Z] (exact below 2^53), objects with a varying set of keys are association lists, the
    environment and the file system are finite maps. The resolver keeps
    the lines it logs, which is where it says what it tries; the logging
    of [expandTaskDirect] and its silent-mode switch are left out. *)

From Stdlib Require Import ZArith String Ascii List.
From stdpp Require Import base option list gmap strings pretty.

Local Open Scope Z_scope.

(** ** Exceptions and logging *)

Inductive level := INFO | WARN | ERROR.

Inductive outcome (A : Type) :=
| Return (a : A)
| Throw (message : string).
Arguments Return {A} a.
Arguments Throw {A} message.

(** A computation returns or throws, and leaves the lines it sent to the
    logger, oldest first. *)
Definition M (A : Type) : Type := outcome A * list (level * string).

Definition ret {A} (a : A) : M A := (Return a, []).
Definition throw {A} (message : string) : M A := (Throw message, []).
Definition log (lvl : level) (message : string) : M unit :=
  (Return tt, [(lvl, message)]).

Definition bind {A B} (m : M A) (f : A -> M B) : M B :=
  match m with
  | (Return a, l) => let '(r, l') := f a in (r, l ++ l')
  | (Throw e, l) => (Throw e, l)
  end.

(** [try { m } catch (error) { h error.message }] *)
Definition try_catch {A} (m : M A) (h : string -> M A) : M A :=
  match m with
  | (Return a, l) => (Return a, l)
  | (Throw e, l) => let '(r, l') := h e in (r, l ++ l')
  end.

Notation "'let*' x ':=' m 'in' k" := (bind m (fun x => k))
  (at level 10, x name, m at level 100, k at level 200, only parsing).
Notation "m ;; k" := (bind m (fun _ => k))
  (at level 100, right associativity, only parsing).

(** ** Strings *)

(** [String.prototype.toUpperCase], on ASCII letters. *)
Definition upper_ascii (c : ascii) : ascii :=
  let n := N_of_ascii c in
  if ((97 <=? n) && (n <=? 122))%N then ascii_of_N (n - 32) else c.

Fixpoint toUpperCase (s : string) : string :=
  match s with
  | EmptyString => EmptyString
  | String c s' => String (upper_ascii c) (toUpperCase s')
  end.

(** A string operand of [||] or [!]: the empty string and [undefined] are
    falsy. *)
Definition truthy (o : option string) : option string :=
  match o with
  | Some s => if decide (s = "") then None else Some s
  | None => None
  end.

(** ** ai-client-utils.js *)

Module AiClientUtils.

(** The MCP session: [session?.env?.KEY] is [undefined] when the session
    or its [env] is missing. *)
Record Session := { env : option (gmap string string) }.

(** What the functions read besides their arguments: [process.env] and
    whether [import('openai')] resolves ([Some message] when it rejects). *)
Record Process := {
  process_env : gmap string string;
  openai_import_error : option string
}.

Definition session_env (session : option Session) (key : string)
  : option string :=
  s ← session; e ← env s; e !! key.

(** [session?.env?.KEY || process.env.KEY], as a truthy string or nothing. *)
Definition env_or (session : option Session) (p : Process) (key : string)
  : option string :=
  match truthy (session_env session key) with
  | Some v => Some v
  | None => truthy (process_env p !! key)
  end.

Inductive Client :=
| Anthropic (apiKey : string) (defaultHeaders : list (string * string))
| GoogleGenerativeAI (apiKey : string)
| OpenAI (apiKey : string) (baseURL : string).

Definition getAnthropicClientForMCP (session : option Session) (p : Process)
  : M Client :=
  try_catch
    (match env_or session p "ANTHROPIC_API_KEY" with
     | None =>
         throw "ANTHROPIC_API_KEY not found in session environment or process.env"
     | Some apiKey =>
         ret (Anthropic apiKey [("anthropic-beta", "output-128k-2025-02-19")])
     end)
    (fun message =>
       log ERROR ("Failed to initialize Anthropic client: " +:+ message) ;;
       throw message).

Definition getGoogleClientForMCP (session : option Session) (p : Process)
  : M Client :=
  try_catch
    (match env_or session p "GOOGLE_API_KEY" with
     | None =>
         throw "GOOGLE_API_KEY not found in session environment or process.env"
     | Some apiKey => ret (GoogleGenerativeAI apiKey)
     end)
    (fun message =>
       log ERROR ("Failed to initialize Google Gemini client: " +:+ message) ;;
       throw message).

Definition getPerplexityClientForMCP (session : option Session) (p : Process)
  : M Client :=
  try_catch
    (match env_or session p "PERPLEXITY_API_KEY" with
     | None =>
         throw "PERPLEXITY_API_KEY not found in session environment or process.env"
     | Some apiKey =>
         match openai_import_error p with
         | Some message => throw message
         | None => ret (OpenAI apiKey "https://api.perplexity.ai")
         end
     end)
    (fun message =>
       log ERROR ("Failed to initialize Perplexity client: " +:+ message) ;;
       throw message).

(** The object returned by [getBestAvailableAIModel]: an object literal
    whose keys differ from one return statement to the next. *)
Inductive value :=
| VStr (s : string)
| VClient (c : Client).

Definition object := list (string * value).

Fixpoint get (key : string) (o : object) : option value :=
  match o with
  | [] => None
  | (k, v) :: o' => if String.eqb k key then Some v else get key o'
  end.

Definition has (key : string) (o : object) : bool :=
  match get key o with Some _ => true | None => false end.

(** [{ type: 'google', client, modelName }] after [getGoogleClientForMCP]. *)
Definition googleModel (session : option Session) (p : Process) : M object :=
  let* client := getGoogleClientForMCP session p in
  let modelName :=
    default "gemini-2.5-pro-latest" (env_or session p "GEMINI_MODEL") in
  ret [("type", VStr "google"); ("client", VClient client);
       ("modelName", VStr modelName)].

(** [{ type: 'claude', client, modelName }] after
    [getAnthropicClientForMCP]; the literal the model name falls back to
    is not the same at every place. *)
Definition claudeModel (session : option Session) (p : Process)
    (fallbackName : string) : M object :=
  let* client := getAnthropicClientForMCP session p in
  let modelName := default fallbackName (env_or session p "MODEL") in
  ret [("type", VStr "claude"); ("client", VClient client);
       ("modelName", VStr modelName)].

(** [{ type: 'perplexity', client, modelName }] of the overload fallback. *)
Definition perplexityFallbackModel (session : option Session) (p : Process)
  : M object :=
  let* client := getPerplexityClientForMCP session p in
  let modelName :=
    default "sonar-pro" (env_or session p "PERPLEXITY_MODEL") in
  ret [("type", VStr "perplexity"); ("client", VClient client);
       ("modelName", VStr modelName)].

(** [{ type: 'perplexity', client }] of the research path. *)
Definition perplexityResearchModel (session : option Session) (p : Process)
  : M object :=
  let* client := getPerplexityClientForMCP session p in
  ret [("type", VStr "perplexity"); ("client", VClient client)].

Definition primaryProviderOf (session : option Session) (p : Process)
  : string :=
  default "ANTHROPIC"
    (truthy (toUpperCase <$> env_or session p "AI_PROVIDER")).

Definition noPrimary : string :=
  "No primary AI models available. Please check your API keys and AI_PROVIDER setting.".

(** Default case: the configured primary provider, then the other one.
    The inner [try] only guards the two fallback branches; when neither
    condition holds, control reaches the final [throw] directly. *)
Definition defaultCase (session : option Session) (p : Process)
    (primaryProvider : string) : M object :=
  try_catch
    (if String.eqb primaryProvider "GOOGLE"
     then googleModel session p
     else claudeModel session p "claude-3-7-sonnet-2025-02-19")
    (fun primaryError =>
       log ERROR ("Failed to initialize primary provider (" +:+ primaryProvider
                  +:+ "): " +:+ primaryError) ;;
       let fallbackFailed fallbackError :=
         log ERROR ("Fallback provider also failed: " +:+ fallbackError) ;;
         throw noPrimary in
       if String.eqb primaryProvider "GOOGLE"
          && bool_decide (is_Some (env_or session p "ANTHROPIC_API_KEY"))
       then
         try_catch
           (log WARN "Google failed, attempting fallback to Anthropic." ;;
            claudeModel session p "claude-3-7-sonnet-2025-02-19")
           fallbackFailed
       else if String.eqb primaryProvider "ANTHROPIC"
          && bool_decide (is_Some (env_or session p "GOOGLE_API_KEY"))
       then
         try_catch
           (log WARN "Anthropic failed, attempting fallback to Google." ;;
            googleModel session p)
           fallbackFailed
       else throw noPrimary).

(** Claude overloaded: Google, then Perplexity, then Claude all the same. *)
Definition overloadedCase (session : option Session) (p : Process)
    (primaryProvider : string) : M object :=
  log WARN "Claude is overloaded. Attempting fallback..." ;;
  let lastResort :=
    try_catch
      (log WARN "All fallbacks failed. Attempting to use overloaded Claude." ;;
       claudeModel session p "claude-3-7-sonnet-2025-02-19")
      (fun claudeError =>
         log ERROR ("Overloaded Claude also failed: " +:+ claudeError) ;;
         throw "No AI models available, Claude overloaded and fallbacks failed.") in
  let tryPerplexity :=
    if bool_decide (is_Some (env_or session p "PERPLEXITY_API_KEY"))
    then
      try_catch
        (log INFO "Falling back to Perplexity due to Claude overload." ;;
         perplexityFallbackModel session p)
        (fun perplexityError =>
           log WARN ("Perplexity fallback failed: " +:+ perplexityError) ;;
           lastResort)
    else lastResort in
  if String.eqb primaryProvider "GOOGLE"
     || bool_decide (is_Some (env_or session p "GOOGLE_API_KEY"))
  then
    try_catch
      (log INFO "Falling back to Google Gemini due to Claude overload." ;;
       googleModel session p)
      (fun googleError =>
         log WARN ("Google fallback failed: " +:+ googleError) ;;
         tryPerplexity)
  else tryPerplexity.

Definition getBestAvailableAIModel (session : option Session) (p : Process)
    (requiresResearch claudeOverloaded : bool) : M object :=
  let primaryProvider := primaryProviderOf session p in
  let afterResearch :=
    if claudeOverloaded
    then overloadedCase session p primaryProvider
    else defaultCase session p primaryProvider in
  if requiresResearch
     && negb (bool_decide (is_Some (env_or session p "PERPLEXITY_API_KEY")))
  then
    try_catch
      (log WARN ("Perplexity not available for research, falling back to primary provider ("
                 +:+ primaryProvider +:+ ")") ;;
       if String.eqb primaryProvider "GOOGLE"
       then googleModel session p
       else claudeModel session p "claude-3-7-sonnet-20250219")
      (fun message =>
         log ERROR ("Primary provider (" +:+ primaryProvider
                    +:+ ") not available for research fallback: " +:+ message) ;;
         throw "No AI models available for research")
  else if requiresResearch
     && bool_decide (is_Some (env_or session p "PERPLEXITY_API_KEY"))
  then
    try_catch
      (perplexityResearchModel session p)
      (fun message =>
         log WARN ("Perplexity not available: " +:+ message) ;;
         afterResearch)
  else afterResearch.

(** *** Reading the outcome *)

(** The first of two outcomes that returned. *)
Definition orElse {A} (r k : outcome A) : outcome A :=
  match r with
  | Return a => Return a
  | Throw _ => k
  end.

(** The fallbacks of the overload path announce themselves in the log
    before they try a provider. *)
Definition attemptOf (line : level * string) : option string :=
  if String.eqb (snd line) "Falling back to Google Gemini due to Claude overload."
  then Some "google"
  else if String.eqb (snd line) "Falling back to Perplexity due to Claude overload."
  then Some "perplexity"
  else if String.eqb (snd line) "All fallbacks failed. Attempting to use overloaded Claude."
  then Some "claude"
  else None.

Definition attempts (lines : list (level * string)) : list string :=
  omap attemptOf lines.

(** A handle with a model name. *)
Definition fullHandle (h : object) : Prop :=
  exists t c m,
    h = [("type", VStr t); ("client", VClient c); ("modelName", VStr m)].

(** The type bound by an outcome of the overload path; its last resort is
    Claude. *)
Definition typeOf (r : outcome object) : string :=
  match r with
  | Return h =>
      match get "type" h with
      | Some (VStr t) => t
      | _ => EmptyString
      end
  | Throw _ => "claude"
  end.

(** *** Sample environments *)

Definition processWith (vars : list (string * string)) : Process :=
  {| process_env := list_to_map vars; openai_import_error := None |}.

Definition noKeys : Process := processWith [].
Definition googleOnly : Process := processWith [("GOOGLE_API_KEY", "g-key")].
Definition anthropicOnly : Process :=
  processWith [("ANTHROPIC_API_KEY", "a-key")].
Definition perplexityOnly : Process :=
  processWith [("PERPLEXITY_API_KEY", "p-key")].

End AiClientUtils.

(** ** expand-task.js *)

Module ExpandTask.

(** *** tasks.json *)

Module Subtask.
Record t := {
  id : Z;
  title : string;
  description : string;
  dependencies : list Z;
  details : string
}.
End Subtask.

(** A task may lack the [subtasks] key ([None]); the code tests for it. *)
Module Task.
Record t := {
  id : Z;
  title : string;
  description : string;
  details : string;
  status : string;
  subtasks : option (list Subtask.t)
}.
End Task.

(** The parsed file: an object that may lack the [tasks] key. *)
Record TasksData := { tasks : option (list Task.t) }.

(** *** Paths and files

    A path is kept in normal form, as the list of its segments. *)
Definition path := list string.

Definition dirname (p : path) : path := removelast p.
Definition join (dir : path) (name : string) : path := dir ++ [name].

Definition path_string (p : path) : string :=
  String.concat EmptyString (map (fun seg => "/" +:+ seg) p).

(** A file holds a JSON document of tasks or something else. *)
Inductive FileContent :=
| JsonFile (data : TasksData)
| OtherFile (bytes : string).

Definition copyFileSync (fs : gmap path FileContent) (src dest : path)
  : outcome (gmap path FileContent) :=
  match fs !! src with
  | Some content => Return (<[dest := content]> fs)
  | None => Throw ("ENOENT: no such file or directory, copyfile '"
                   +:+ path_string src +:+ "' -> '" +:+ path_string dest +:+ "'")
  end.

Definition unlinkSync (fs : gmap path FileContent) (p : path)
  : outcome (gmap path FileContent) :=
  match fs !! p with
  | Some _ => Return (delete p fs)
  | None => Throw ("ENOENT: no such file or directory, unlink '"
                   +:+ path_string p +:+ "'")
  end.

(** Modelled from the spec: [readJSON] and [writeJSON] of
    scripts/modules/utils.js, which are imported but not part of the
    sources at hand. Reading gives the document a file holds, and [null]
    when the file is absent or holds no JSON; writing replaces the file by
    the serialised document, and reading it back gives the document
    written. *)
Definition readJSON (fs : gmap path FileContent) (p : path)
  : option TasksData :=
  match fs !! p with
  | Some (JsonFile data) => Some data
  | _ => None
  end.

Definition writeJSON (fs : gmap path FileContent) (p : path)
    (data : TasksData) : gmap path FileContent :=
  <[p := JsonFile data]> fs.

(** *** Arguments *)

(** An argument that is absent, a number or a string. *)
Inductive jsval :=
| Undefined
| Num (n : Z)
| Str (s : string).

Definition truthy_val (v : jsval) : bool :=
  match v with
  | Undefined => false
  | Num n => negb (n =? 0)
  | Str s => negb (String.eqb s EmptyString)
  end.

Inductive number := NaN | Int (n : Z).

(** The white space that [parseInt] strips (WhiteSpace and LineTerminator
    of ECMAScript), text being read as UTF-8. In one byte: tab, line feed,
    vertical tab, form feed, carriage return and space. *)
Definition is_whitespace (c : ascii) : bool :=
  match N_of_ascii c with
  | 9 | 10 | 11 | 12 | 13 | 32 => true
  | _ => false
  end%N.

(** In two bytes: U+00A0. *)
Definition is_whitespace2 (c d : ascii) : bool :=
  ((N_of_ascii c =? 194) && (N_of_ascii d =? 160))%N.

(** In three bytes: U+1680, U+2000 to U+200A, U+2028, U+2029, U+202F,
    U+205F, U+3000 and U+FEFF. *)
Definition is_whitespace3 (c d e : ascii) : bool :=
  let a := N_of_ascii c in
  let b := N_of_ascii d in
  let x := N_of_ascii e in
  (((a =? 225) && ((b =? 154) && (x =? 128)))
   || ((a =? 226)
       && (((b =? 128)
            && (((128 <=? x) && (x <=? 138))
                || (x =? 168) || (x =? 169) || (x =? 175)))
           || ((b =? 129) && (x =? 159))))
   || ((a =? 227) && ((b =? 128) && (x =? 128)))
   || ((a =? 239) && ((b =? 187) && (x =? 191))))%N.

Fixpoint skip_whitespace (s : string) : string :=
  match s with
  | String c s1 =>
      if is_whitespace c then skip_whitespace s1
      else
        match s1 with
        | String d s2 =>
            if is_whitespace2 c d then skip_whitespace s2
            else
              match s2 with
              | String e s3 =>
                  if is_whitespace3 c d e then skip_whitespace s3 else s
              | EmptyString => s
              end
        | EmptyString => s
        end
  | EmptyString => s
  end.

Definition digit (c : ascii) : option Z :=
  let n := Z.of_N (N_of_ascii c) in
  if (48 <=? n) && (n <=? 57) then Some (n - 48) else None.

(** The longest prefix of decimal digits, read as a number; [acc] is what
    has been read so far, if any digit has. *)
Fixpoint digits (acc : option Z) (s : string) : option Z :=
  match s with
  | String c s' =>
      match digit c with
      | Some d => digits (Some (10 * default 0 acc + d)) s'
      | None => acc
      end
  | EmptyString => acc
  end.

Definition number_of (sign : Z) (o : option Z) : number :=
  match o with
  | Some n => Int (sign * n)
  | None => NaN
  end.

(** [parseInt(v, 10)]: leading white space, an optional sign, then digits;
    [NaN] when there is no digit. A number argument is an integer, whose
    decimal form [parseInt] reads back: so the code does for the integers
    up to Number.MAX_SAFE_INTEGER in absolute value, to which the
    statements that read a number back are restricted. *)
Definition parseInt (v : jsval) : number :=
  match v with
  | Undefined => NaN
  | Num n => Int n
  | Str s =>
      match skip_whitespace s with
      | String "-" s' => number_of (-1) (digits None s')
      | String "+" s' => number_of 1 (digits None s')
      | s' => number_of 1 (digits None s')
      end
  end.

Record Args := {
  tasksJsonPath : option path;   (* [None]: absent or empty *)
  id : jsval;
  num : jsval;
  research : option bool;
  prompt : option string;
  force : option bool
}.

(** *** Results *)

#[warnings="-register-all"]
Inductive value :=
| VBool (b : bool)
| VNum (n : Z)
| VStr (s : string)
| VTask (task : Task.t)
| VSubtasks (l : list Subtask.t)
| VObj (o : list (string * value)).

Definition object := list (string * value).

Fixpoint get (key : string) (o : object) : option value :=
  match o with
  | [] => None
  | (k, v) :: o' => if String.eqb k key then Some v else get key o'
  end.

Definition has (key : string) (o : object) : bool :=
  match get key o with Some _ => true | None => false end.

Definition failure (code message : string) : object :=
  [("success", VBool false);
   ("error", VObj [("code", VStr code); ("message", VStr message)]);
   ("fromCache", VBool false)].

Definition success (data : object) : object :=
  [("success", VBool true); ("data", VObj data); ("fromCache", VBool false)].

(** [error.message || 'Failed to expand task'] *)
Definition messageOr (message : string) : string :=
  if String.eqb message EmptyString then "Failed to expand task" else message.

(** *** The prompt *)

Definition nl : string := String "010"%char EmptyString.
Definition dq : string := String "034"%char EmptyString.

Definition systemPrompt (subtaskCount nextSubtaskId : Z) : string :=
  "You are an AI assistant helping with task breakdown. Break down the given task into "
  +:+ pretty subtaskCount +:+ " specific subtasks." +:+ nl +:+ nl
  +:+ "Subtasks should:" +:+ nl
  +:+ "1. Be specific and actionable implementation steps" +:+ nl
  +:+ "2. Follow a logical sequence" +:+ nl
  +:+ "3. Each handle a distinct part of the parent task" +:+ nl
  +:+ "4. Include clear guidance on implementation approach" +:+ nl
  +:+ "5. Have appropriate dependency chains between subtasks (use numerical IDs starting from "
  +:+ pretty nextSubtaskId +:+ ")" +:+ nl
  +:+ "6. Collectively cover all aspects of the parent task" +:+ nl +:+ nl
  +:+ "Return exactly " +:+ pretty subtaskCount
  +:+ " subtasks with the following JSON structure:" +:+ nl
  +:+ "[" +:+ nl
  +:+ "  {" +:+ nl
  +:+ "    " +:+ dq +:+ "id" +:+ dq +:+ ": " +:+ pretty nextSubtaskId +:+ "," +:+ nl
  +:+ "    " +:+ dq +:+ "title" +:+ dq +:+ ": " +:+ dq +:+ "First subtask title" +:+ dq +:+ "," +:+ nl
  +:+ "    " +:+ dq +:+ "description" +:+ dq +:+ ": " +:+ dq +:+ "Detailed description" +:+ dq +:+ "," +:+ nl
  +:+ "    " +:+ dq +:+ "dependencies" +:+ dq +:+ ": []," +:+ nl
  +:+ "    " +:+ dq +:+ "details" +:+ dq +:+ ": " +:+ dq +:+ "Implementation details" +:+ dq +:+ nl
  +:+ "  }," +:+ nl
  +:+ "  ..." +:+ nl
  +:+ "]" +:+ nl +:+ nl
  +:+ "IMPORTANT: Respond ONLY with the JSON array, nothing else.".

Definition contextPrompt (additionalContext : string) : string :=
  if String.eqb additionalContext EmptyString then EmptyString
  else nl +:+ nl +:+ "Additional context: " +:+ additionalContext.

Definition userPrompt (subtaskCount : Z) (task : Task.t)
    (additionalContext : string) : string :=
  "Break down this task into " +:+ pretty subtaskCount +:+ " subtasks:" +:+ nl
  +:+ "Task ID: " +:+ pretty (Task.id task) +:+ nl
  +:+ "Title: " +:+ Task.title task +:+ nl
  +:+ "Description: " +:+ Task.description task +:+ nl
  +:+ "Details: "
  +:+ (if String.eqb (Task.details task) EmptyString then "N/A"
       else Task.details task)
  +:+ contextPrompt additionalContext.

(** [(task.subtasks?.length || 0) + 1] *)
Definition nextSubtaskIdOf (task : Task.t) : Z :=
  Z.of_nat (length (default [] (Task.subtasks task))) + 1.

(** [numSubtasks || 5]: [undefined], [NaN] and 0 are falsy. *)
Definition subtaskCountOf (numSubtasks : option number) : Z :=
  match numSubtasks with
  | Some (Int n) => if n =? 0 then 5 else n
  | _ => 5
  end.

Definition fullPrompt (task : Task.t) (subtaskCount : Z)
    (additionalContext : string) : string :=
  systemPrompt subtaskCount (nextSubtaskIdOf task)
  +:+ nl +:+ nl +:+ userPrompt subtaskCount task additionalContext.

(** *** The collaborators

    [callAIProvider] and [parseSubtasksFromText] come from
    scripts/modules/ai-services.js; they are taken as given: a provider
    answers a prompt with text or throws, the parser gives subtasks, a
    falsy value ([None]) or throws. Neither touches the file system. *)
Record Services := {
  callAIProvider : string -> bool -> outcome string;
  parseSubtasksFromText :
    string -> Z -> Z -> Z -> outcome (option (list Subtask.t))
}.

(** *** expandTaskDirect *)

(** What a call leaves behind: the object it returns, the file system, and
    the calls made to the provider (prompt, useResearch). *)
Record Run := {
  result : object;
  files : gmap path FileContent;
  calls : list (string * bool)
}.

(** [task.subtasks = subs] *)
Definition withSubtasks (subs : list Subtask.t) (t : Task.t) : Task.t :=
  {| Task.id := Task.id t; Task.title := Task.title t;
     Task.description := Task.description t; Task.details := Task.details t;
     Task.status := Task.status t; Task.subtasks := Some subs |}.

(** The task object found by [data.tasks.find] is shared with [data]:
    assigning to its [subtasks] changes the first task of that id in
    [data.tasks] as well. *)
Fixpoint setSubtasks (taskId : Z) (subs : list Subtask.t)
    (ts : list Task.t) : list Task.t :=
  match ts with
  | [] => []
  | t :: ts' =>
      if Task.id t =? taskId
      then withSubtasks subs t :: ts'
      else t :: setSubtasks taskId subs ts'
  end.

Definition findTask (taskId : Z) (ts : list Task.t) : option Task.t :=
  List.find (fun t => Task.id t =? taskId) ts.

(** [JSON.stringify(data)] in the message of INVALID_TASKS_FILE, where
    [data] is [null] or lacks [tasks]. *)
Definition stringifyInvalid (data : option TasksData) : string :=
  match data with
  | None => "null"
  | Some _ => "{}"
  end.

(** [task.subtasks && task.subtasks.length > 0] *)
Definition hasSubtasks (task : Task.t) : bool :=
  match Task.subtasks task with
  | Some (_ :: _) => true
  | _ => false
  end.

(** [id ? parseInt(id, 10) : null] and [num ? parseInt(num, 10) : undefined] *)
Definition taskIdOf (id : jsval) : option number :=
  if truthy_val id then Some (parseInt id) else None.

Definition numSubtasksOf (num : jsval) : option number :=
  if truthy_val num then Some (parseInt num) else None.

(** The inner [try] block, entered once the backup is taken and the
    prepared [data] is saved: [fs2] is the file system then, [tasks2] is
    [data.tasks] and [task2] the task in it. *)
Definition processRequest (svc : Services) (fs2 : gmap path FileContent)
    (tasksPath backupPath : path) (taskId : Z) (tasks2 : list Task.t)
    (task2 originalTask : Task.t) (numSubtasks : option number)
    (useResearch : bool) (additionalContext : string) : Run :=
  let nextSubtaskId := nextSubtaskIdOf task2 in
  let subtaskCount := subtaskCountOf numSubtasks in
  let prompt := fullPrompt task2 subtaskCount additionalContext in
  let failed fs message :=
    {| result := failure "CORE_FUNCTION_ERROR" (messageOr message);
       files := fs; calls := [(prompt, useResearch)] |} in
  match callAIProvider svc prompt useResearch with
  | Throw message => failed fs2 ("AI Error: " +:+ message)
  | Return generatedSubtasksText =>
  match parseSubtasksFromText svc generatedSubtasksText nextSubtaskId
          subtaskCount (Task.id task2) with
  | Throw message => failed fs2 message
  | Return None | Return (Some []) =>
      failed fs2 "AI did not return valid subtasks."
  | Return (Some newSubtasks) =>
  (* findIndex gives the task found before: the first of that id *)
  let merged := default [] (Task.subtasks task2) ++ newSubtasks in
  let tasks3 := setSubtasks taskId merged tasks2 in
  let subtasksAdded := Z.of_nat (length newSubtasks) in
  let fs3 := writeJSON fs2 tasksPath {| tasks := Some tasks3 |} in
  match unlinkSync fs3 backupPath with
  | Throw message => failed fs3 message
  | Return fs4 =>
      {| result :=
           success
             [("message", VStr ("Task " +:+ pretty taskId
                                +:+ " expanded successfully with "
                                +:+ pretty subtasksAdded +:+ " subtasks."));
              ("task", VTask originalTask);
              ("newSubtasks", VSubtasks newSubtasks);
              ("subtasksAdded", VNum subtasksAdded);
              ("totalSubtasks", VNum (Z.of_nat (length merged)))];
         files := fs4; calls := [(prompt, useResearch)] |}
  end end end.

Definition expandTaskDirect (svc : Services) (fs : gmap path FileContent)
    (args : Args) : Run :=
  let stop r := {| result := r; files := fs; calls := [] |} in
  match tasksJsonPath args with
  | None => stop (failure "MISSING_ARGUMENT" "tasksJsonPath is required")
  | Some tasksPath =>
  match taskIdOf (id args) with
  | None | Some NaN =>
      stop (failure "INPUT_VALIDATION_ERROR" "Task ID is required")
  | Some (Int taskId) =>
  if taskId =? 0
  then stop (failure "INPUT_VALIDATION_ERROR" "Task ID is required")
  else
  let numSubtasks := numSubtasksOf (num args) in
  let useResearch := bool_decide (research args = Some true) in
  let additionalContext := default EmptyString (prompt args) in
  let forceFlag := bool_decide (force args = Some true) in
  let data := readJSON fs tasksPath in
  match data ≫= tasks with
  | None =>
      stop (failure "INVALID_TASKS_FILE"
              ("No valid tasks found in " +:+ path_string tasksPath
               +:+ ". readJSON returned: " +:+ stringifyInvalid data))
  | Some tasks0 =>
  match findTask taskId tasks0 with
  | None =>
      stop (failure "TASK_NOT_FOUND"
              ("Task with ID " +:+ pretty taskId +:+ " not found"))
  | Some task =>
  if String.eqb (Task.status task) "done"
     || String.eqb (Task.status task) "completed"
  then
    stop (failure "TASK_COMPLETED"
            ("Task " +:+ pretty taskId +:+ " is already marked as "
             +:+ Task.status task +:+ " and cannot be expanded"))
  else
  let hasExistingSubtasks := hasSubtasks task in
  if hasExistingSubtasks && negb forceFlag
  then
    stop (success
            [("message", VStr ("Task " +:+ pretty taskId
                               +:+ " already has subtasks. Expansion skipped."));
             ("task", VTask task);
             ("subtasksAdded", VNum 0);
             ("hasExistingSubtasks", VBool hasExistingSubtasks)])
  else
  (* task.subtasks = [] under force, seen through data.tasks too *)
  let clear := hasExistingSubtasks && forceFlag in
  let task1 := if clear then withSubtasks [] task else task in
  let tasks1 := if clear then setSubtasks taskId [] tasks0 else tasks0 in
  let originalTask := task1 in
  let backupPath := join (dirname tasksPath) "tasks.json.bak" in
  match copyFileSync fs tasksPath backupPath with
  | Throw message => stop (failure "CORE_FUNCTION_ERROR" (messageOr message))
  | Return fs1 =>
  (* if (!task.subtasks) task.subtasks = [] *)
  let missing := bool_decide (Task.subtasks task1 = None) in
  let task2 := if missing then withSubtasks [] task1 else task1 in
  let tasks2 := if missing then setSubtasks taskId [] tasks1 else tasks1 in
  let fs2 := writeJSON fs1 tasksPath {| tasks := Some tasks2 |} in
  processRequest svc fs2 tasksPath backupPath taskId tasks2 task2
    originalTask numSubtasks useResearch additionalContext
  end end end end end.

(** *** Vocabulary of the properties *)

(** A call gets as far as [task]: the path and the id are given, the file
    holds [tasks0], and [task] is the first task of that id. *)
Record Reaches (fs : gmap path FileContent) (args : Args)
    (tasksPath : path) (taskId : Z) (tasks0 : list Task.t) (task : Task.t)
  : Prop := {
  reaches_path : tasksJsonPath args = Some tasksPath;
  reaches_id : taskIdOf (id args) = Some (Int taskId);
  reaches_id_nonzero : taskId <> 0;
  reaches_file : fs !! tasksPath = Some (JsonFile {| tasks := Some tasks0 |});
  reaches_task : findTask taskId tasks0 = Some task
}.

Definition terminal (task : Task.t) : Prop :=
  Task.status task = "done" \/ Task.status task = "completed".

(** The provider throws, or the parser throws or gives nothing, on the
    request made for [task2]. *)
Definition generationFails (svc : Services) (task2 : Task.t)
    (numSubtasks : option number) (useResearch : bool)
    (additionalContext : string) : bool :=
  let subtaskCount := subtaskCountOf numSubtasks in
  match callAIProvider svc (fullPrompt task2 subtaskCount additionalContext)
          useResearch with
  | Throw _ => true
  | Return text =>
      match parseSubtasksFromText svc text (nextSubtaskIdOf task2)
              subtaskCount (Task.id task2) with
      | Return (Some (_ :: _)) => false
      | _ => true
      end
  end.

Definition errorCodes : list string :=
  ["MISSING_ARGUMENT"; "INPUT_VALIDATION_ERROR"; "INVALID_TASKS_FILE";
   "TASK_NOT_FOUND"; "TASK_COMPLETED"; "CORE_FUNCTION_ERROR";
   "NO_PROVIDER_AVAILABLE"].

Definition isFailure (r : object) : Prop :=
  get "success" r = Some (VBool false) /\
  exists code message,
    get "error" r = Some (VObj [("code", VStr code); ("message", VStr message)])
    /\ code ∈ errorCodes /\ message <> EmptyString.

(** The data of a success after generation, and of the skip. *)
Definition expandedData (data : object) : Prop :=
  has "message" data = true /\ has "task" data = true
  /\ has "newSubtasks" data = true /\ has "subtasksAdded" data = true
  /\ has "totalSubtasks" data = true.

Definition skippedData (data : object) : Prop :=
  has "message" data = true /\ has "task" data = true
  /\ get "subtasksAdded" data = Some (VNum 0)
  /\ get "hasExistingSubtasks" data = Some (VBool true)
  /\ has "newSubtasks" data = false /\ has "totalSubtasks" data = false.

(** [s] occurs in [text]. *)
Definition occursIn (s text : string) : Prop :=
  exists before after, text = before +:+ s +:+ after.

(** [s] starts [text]. *)
Definition startsWith (s text : string) : Prop :=
  exists after, text = s +:+ after.

Definition withNum (num : jsval) (args : Args) : Args :=
  {| tasksJsonPath := tasksJsonPath args; id := id args; num := num;
     research := research args; prompt := prompt args; force := force args |}.

(** *** Sample store *)

Definition design : Subtask.t :=
  {| Subtask.id := 1; Subtask.title := "Design the routes";
     Subtask.description := "List the endpoints"; Subtask.dependencies := [];
     Subtask.details := "REST" |}.

Definition buildApi (status : string) (subs : option (list Subtask.t))
  : Task.t :=
  {| Task.id := 3; Task.title := "Build API";
     Task.description := "Expose the service"; Task.details := EmptyString;
     Task.status := status; Task.subtasks := subs |}.

Definition tasksJson : path := ["project"; "tasks"; "tasks.json"].

Definition store (t : Task.t) : gmap path FileContent :=
  {[ tasksJson := JsonFile {| tasks := Some [t] |} ]}.

Definition expandArgs (num : jsval) (force : option bool) : Args :=
  {| tasksJsonPath := Some tasksJson; id := Str "3"; num := num;
     research := None; prompt := None; force := force |}.

Definition subtaskNo (n : Z) : Subtask.t :=
  {| Subtask.id := n; Subtask.title := "Step " +:+ pretty n;
     Subtask.description := "Part of the API"; Subtask.dependencies := [];
     Subtask.details := "To do" |}.

(** A provider that answers with three subtasks, numbered from the id it
    is asked to start from. *)
Definition helpful : Services :=
  {| callAIProvider := fun _ _ => Return "[ three subtasks ]";
     parseSubtasksFromText := fun _ nextSubtaskId _ _ =>
       Return (Some [subtaskNo nextSubtaskId; subtaskNo (nextSubtaskId + 1);
                     subtaskNo (nextSubtaskId + 2)]) |}.

(** A provider whose answer the parser rejects. *)
Definition garbled : Services :=
  {| callAIProvider := fun _ _ => Return "Sorry, I cannot help with that.";
     parseSubtasksFromText := fun _ _ _ _ => Return None |}.

End ExpandTask.

(** ** More vocabulary for expand-task.js *)

Module ExpandTaskMore.
Import ExpandTask.

Definition withId (id : jsval) (args : Args) : Args :=
  {| tasksJsonPath := tasksJsonPath args; id := id; num := num args;
     research := research args; prompt := prompt args; force := force args |}.

Definition withForce (force : option bool) (args : Args) : Args :=
  {| tasksJsonPath := tasksJsonPath args; id := id args; num := num args;
     research := research args; prompt := prompt args; force := force |}.

(** The services with the parser always asked to number from 1. *)
Definition fromOne (svc : Services) : Services :=
  {| callAIProvider := callAIProvider svc;
     parseSubtasksFromText := fun text _ subtaskCount parentId =>
       parseSubtasksFromText svc text 1 subtaskCount parentId |}.

(** Number.MAX_SAFE_INTEGER: up to it, in absolute value, the integers
    are numbers of JavaScript and print in decimal. *)
Definition MAX_SAFE_INTEGER : Z := 2 ^ 53 - 1.

Definition isSafeInteger (n : Z) : Prop := Z.abs n <= MAX_SAFE_INTEGER.

Fixpoint allWhitespace (s : string) : bool :=
  match s with
  | EmptyString => true
  | String c s' => is_whitespace c && allWhitespace s'
  end.

Definition startsWithDigit (s : string) : bool :=
  match s with
  | String c _ => bool_decide (is_Some (digit c))
  | EmptyString => false
  end.

(** [s] ends [text]. *)
Definition endsWith (s text : string) : Prop :=
  exists before, text = before +:+ s.

(** A call reaches [task], is not stopped by the status guard or the
    skip, and the provider and the parser give [newSubtasks], not empty;
    the store file is not itself named tasks.json.bak. *)
Record Expands (svc : Services) (fs : gmap path FileContent) (args : Args)
    (tasksPath : path) (taskId : Z) (tasks0 : list Task.t) (task : Task.t)
    (newSubtasks : list Subtask.t) : Prop := {
  expands_reaches : Reaches fs args tasksPath taskId tasks0 task;
  expands_status : ~ terminal task;
  expands_force : hasSubtasks task = true -> force args = Some true;
  expands_generated :
    exists text,
      callAIProvider svc
        (fullPrompt (withSubtasks [] task)
           (subtaskCountOf (numSubtasksOf (num args)))
           (default EmptyString (prompt args)))
        (bool_decide (research args = Some true)) = Return text
      /\ parseSubtasksFromText svc text 1
           (subtaskCountOf (numSubtasksOf (num args))) taskId
         = Return (Some newSubtasks);
  expands_nonempty : newSubtasks <> [];
  expands_backup : join (dirname tasksPath) "tasks.json.bak" <> tasksPath
}.

(** Two tasks agree on what the prompt is built from: the id, the title,
    the description, the details and the number of subtasks. *)
Definition samePromptFields (t1 t2 : Task.t) : Prop :=
  Task.id t1 = Task.id t2 /\ Task.title t1 = Task.title t2
  /\ Task.description t1 = Task.description t2
  /\ Task.details t1 = Task.details t2
  /\ length (default [] (Task.subtasks t1))
     = length (default [] (Task.subtasks t2)).

(** *** A store of two tasks, next to another file *)

Definition writeDocs : Task.t :=
  {| Task.id := 4; Task.title := "Write the docs";
     Task.description := "Describe the endpoints";
     Task.details := "Markdown"; Task.status := "in-progress";
     Task.subtasks := Some [design] |}.

Definition readme : path := ["project"; "README.md"].

Definition project (ts : list Task.t) : gmap path FileContent :=
  <[readme := OtherFile "# Build API"]>
    {[ tasksJson := JsonFile {| tasks := Some ts |} ]}.

End ExpandTaskMore.

(** ** The rest of ai-client-utils.js *)

Module ClaudeErrors.

Definition lower_ascii (c : ascii) : ascii :=
  let n := N_of_ascii c in
  if ((65 <=? n) && (n <=? 90))%N then ascii_of_N (n + 32) else c.

(** [String.prototype.toLowerCase], on ASCII letters. *)
Fixpoint toLowerCase (s : string) : string :=
  match s with
  | EmptyString => EmptyString
  | String c s' => String (lower_ascii c) (toLowerCase s')
  end.

Fixpoint startsWithb (sub s : string) : bool :=
  match sub, s with
  | EmptyString, _ => true
  | String a sub', String b s' => Ascii.eqb a b && startsWithb sub' s'
  | String _ _, EmptyString => false
  end.

(** [String.prototype.includes] *)
Fixpoint includes (sub s : string) : bool :=
  startsWithb sub s
  || match s with
     | String _ s' => includes sub s'
     | EmptyString => false
     end.

(** The body of an API error response: [error.error]. *)
Record ApiError := {
  api_type : option string;
  api_message : option string
}.

(** What [handleClaudeError] reads of the error it is given; a key that
    is missing is [None]. *)
Record Error := {
  type : option string;
  error : option ApiError;
  message : option string
}.

(** A value in a template literal; [undefined] prints as its name. *)
Definition shown (o : option string) : string := default "undefined" o.

Definition handleClaudeError (e : Error) : string :=
  match (if bool_decide (type e = Some "error") then error e else None) with
  | Some api =>
      if bool_decide (api_type api = Some "overloaded_error")
      then "Claude is currently experiencing high demand and is overloaded. Please wait a few minutes and try again."
      else if bool_decide (api_type api = Some "rate_limit_error")
      then "You have exceeded the rate limit. Please wait a few minutes before making more requests."
      else if bool_decide (api_type api = Some "invalid_request_error")
      then "There was an issue with the request format. If this persists, please report it as a bug."
      else "Claude API error: " +:+ shown (api_message api)
  | None =>
      if match message e with
         | Some m => includes "timeout" (toLowerCase m)
         | None => false
         end
      then "The request to Claude timed out. Please try again."
      else if match message e with
              | Some m => includes "network" (toLowerCase m)
              | None => false
              end
      then "There was a network error connecting to Claude. Please check your internet connection and try again."
      else "Error communicating with Claude: " +:+ shown (message e)
  end.

Definition withMessage (m : option string) (e : Error) : Error :=
  {| type := type e; error := error e; message := m |}.

End ClaudeErrors.

Module ModelConfig.
Import AiClientUtils ExpandTask.

Definition hexDigit (c : ascii) : option Z :=
  let n := Z.of_N (N_of_ascii c) in
  if (48 <=? n) && (n <=? 57) then Some (n - 48)
  else if (97 <=? n) && (n <=? 102) then Some (n - 87)
  else if (65 <=? n) && (n <=? 70) then Some (n - 55)
  else None.

Fixpoint hexDigits (acc : option Z) (s : string) : option Z :=
  match s with
  | String c s' =>
      match hexDigit c with
      | Some d => hexDigits (Some (16 * default 0 acc + d)) s'
      | None => acc
      end
  | EmptyString => acc
  end.

(** The digits after the sign, with no radix given: hexadecimal after 0x
    or 0X, decimal otherwise. *)
Definition unsignedOf (s : string) : option Z :=
  match s with
  | String "0" (String "x" s') | String "0" (String "X" s') =>
      hexDigits None s'
  | _ => digits None s
  end.

(** [parseInt(text)] *)
Definition parseIntText (s : string) : number :=
  match skip_whitespace s with
  | String "-" s' => number_of (-1) (unsignedOf s')
  | String "+" s' => number_of 1 (unsignedOf s')
  | s' => number_of 1 (unsignedOf s')
  end.

(** The configuration: [temperature] keeps the text that [parseFloat] is
    given, which is not evaluated here. *)
Record Config := {
  model : string;
  maxTokens : number;
  temperature : string
}.

(** The defaults: the numbers [maxTokens] and [temperature], the latter by
    its decimal text. *)
Record Defaults := {
  default_model : string;
  default_maxTokens : Z;
  default_temperature : string
}.

Definition DEFAULT_MODEL_CONFIG : Defaults :=
  {| default_model := "claude-3-7-sonnet-20250219";
     default_maxTokens := 64000;
     default_temperature := "0.2" |}.

Definition getModelConfig (session : option Session) (defaults : Defaults)
  : Config :=
  {| model :=
       default (default_model defaults) (truthy (session_env session "MODEL"));
     maxTokens :=
       match truthy (session_env session "MAX_TOKENS") with
       | Some text => parseIntText text
       | None => Int (default_maxTokens defaults)
       end;
     temperature :=
       default (default_temperature defaults)
         (truthy (session_env session "TEMPERATURE")) |}.

End ModelConfig.

(** ** More vocabulary for the resolver *)

Module AiClientUtilsMore.
Import AiClientUtils.

Definition withProcessEnv (vars : gmap string string) (p : Process)
  : Process :=
  {| process_env := vars; openai_import_error := openai_import_error p |}.

Definition sessionOf (vars : gmap string string) : option Session :=
  Some {| env := Some vars |}.

(** Text of ASCII only, on which [toUpperCase] is the function of
    JavaScript. *)
Fixpoint isAscii (s : string) : bool :=
  match s with
  | EmptyString => true
  | String c s' => (N_of_ascii c <? 128)%N && isAscii s'
  end.

(** The roles of the two conversational families, as the default path
    gives them: the type it binds for [primaryProvider] (GOOGLE binds
    google, anything else claude), and the type of the other family. *)
Definition primaryFamily (primaryProvider : string) : string :=
  if String.eqb primaryProvider "GOOGLE" then "google" else "claude".

Definition alternateFamily (primaryProvider : string) : string :=
  if String.eqb primaryProvider "GOOGLE" then "claude" else "google".

(** Every key set, and a session that names Google as primary. *)
Definition allKeys : Process :=
  processWith [("ANTHROPIC_API_KEY", "a-key"); ("GOOGLE_API_KEY", "g-key");
               ("PERPLEXITY_API_KEY", "p-key")].

Definition googlePrimary : option Session :=
  sessionOf {[ "AI_PROVIDER" := "google" ]}.

(** The client of a handle is built from the configured key of the
    provider its type names. *)
Definition boundFrom (session : option Session) (p : Process) (h : object)
  : Prop :=
  (get "type" h = Some (VStr "google")
   /\ exists apiKey,
        env_or session p "GOOGLE_API_KEY" = Some apiKey
        /\ get "client" h = Some (VClient (GoogleGenerativeAI apiKey)))
  \/ (get "type" h = Some (VStr "claude")
      /\ exists apiKey,
           env_or session p "ANTHROPIC_API_KEY" = Some apiKey
           /\ get "client" h
              = Some (VClient (Anthropic apiKey
                                 [("anthropic-beta", "output-128k-2025-02-19")])))
  \/ (get "type" h = Some (VStr "perplexity")
      /\ openai_import_error p = None
      /\ exists apiKey,
           env_or session p "PERPLEXITY_API_KEY" = Some apiKey
           /\ get "client" h
              = Some (VClient (OpenAI apiKey "https://api.perplexity.ai"))).

End AiClientUtilsMore.

(** * Properties *)

(** ** What a computation returns, whatever it logs *)

Lemma fst_bind {A B} (m : M A) (f : A -> M B) :
  fst (bind m f) = match fst m with Return a => fst (f a) | Throw e => Throw e end.
Proof. destruct m as [[a|e] l]; simpl; [destruct (f a)|]; reflexivity. Qed.

Lemma fst_try_catch {A} (m : M A) (h : string -> M A) :
  fst (try_catch m h) =
  match fst m with Return a => Return a | Throw e => fst (h e) end.
Proof. destruct m as [[a|e] l]; simpl; [|destruct (h e)]; reflexivity. Qed.

Lemma fst_log_then {B} lvl message (k : M B) :
  fst (bind (log lvl message) (fun _ => k)) = fst k.
Proof. unfold bind, log. destruct k; reflexivity. Qed.

(** ** Provider resolution *)

Module AiClientUtilsFacts.
Import AiClientUtils.

Lemma caught_rethrow {A} (m : M A) (line : string -> string) :
  fst (try_catch m (fun message => log ERROR (line message) ;; throw message))
  = fst m.
Proof.
  rewrite fst_try_catch. destruct (fst m); [reflexivity|].
  now rewrite fst_log_then.
Qed.

Lemma caught_orElse {A} (m : M A) lvl (line : string -> string) (k : M A) :
  fst (try_catch m (fun message => log lvl (line message) ;; k))
  = orElse (fst m) (fst k).
Proof.
  rewrite fst_try_catch. destruct (fst m); [reflexivity|].
  now rewrite fst_log_then.
Qed.

Section Results.
Context (session : option Session) (p : Process).

Lemma google_client :
  fst (getGoogleClientForMCP session p) =
  match env_or session p "GOOGLE_API_KEY" with
  | Some apiKey => Return (GoogleGenerativeAI apiKey)
  | None => Throw "GOOGLE_API_KEY not found in session environment or process.env"
  end.
Proof.
  unfold getGoogleClientForMCP. rewrite caught_rethrow.
  now destruct (env_or _ _ _).
Qed.

Lemma anthropic_client :
  fst (getAnthropicClientForMCP session p) =
  match env_or session p "ANTHROPIC_API_KEY" with
  | Some apiKey =>
      Return (Anthropic apiKey [("anthropic-beta", "output-128k-2025-02-19")])
  | None =>
      Throw "ANTHROPIC_API_KEY not found in session environment or process.env"
  end.
Proof.
  unfold getAnthropicClientForMCP. rewrite caught_rethrow.
  now destruct (env_or _ _ _).
Qed.

Lemma perplexity_client :
  fst (getPerplexityClientForMCP session p) =
  match env_or session p "PERPLEXITY_API_KEY" with
  | Some apiKey =>
      match openai_import_error p with
      | Some message => Throw message
      | None => Return (OpenAI apiKey "https://api.perplexity.ai")
      end
  | None =>
      Throw "PERPLEXITY_API_KEY not found in session environment or process.env"
  end.
Proof.
  unfold getPerplexityClientForMCP. rewrite caught_rethrow.
  destruct (env_or _ _ _); [|reflexivity]. now destruct (openai_import_error p).
Qed.

Lemma google_model :
  fst (googleModel session p) =
  match env_or session p "GOOGLE_API_KEY" with
  | Some apiKey =>
      Return [("type", VStr "google");
              ("client", VClient (GoogleGenerativeAI apiKey));
              ("modelName",
               VStr (default "gemini-2.5-pro-latest"
                       (env_or session p "GEMINI_MODEL")))]
  | None => Throw "GOOGLE_API_KEY not found in session environment or process.env"
  end.
Proof.
  unfold googleModel. rewrite fst_bind, google_client.
  now destruct (env_or session p "GOOGLE_API_KEY").
Qed.

Lemma claude_model fallbackName :
  fst (claudeModel session p fallbackName) =
  match env_or session p "ANTHROPIC_API_KEY" with
  | Some apiKey =>
      Return [("type", VStr "claude");
              ("client",
               VClient (Anthropic apiKey
                          [("anthropic-beta", "output-128k-2025-02-19")]));
              ("modelName",
               VStr (default fallbackName (env_or session p "MODEL")))]
  | None =>
      Throw "ANTHROPIC_API_KEY not found in session environment or process.env"
  end.
Proof.
  unfold claudeModel. rewrite fst_bind, anthropic_client.
  now destruct (env_or session p "ANTHROPIC_API_KEY").
Qed.

Lemma overloaded_result primaryProvider :
  fst (overloadedCase session p primaryProvider) =
  orElse (fst (googleModel session p))
    (orElse (fst (perplexityFallbackModel session p))
       (orElse (fst (claudeModel session p "claude-3-7-sonnet-2025-02-19"))
          (Throw "No AI models available, Claude overloaded and fallbacks failed."))).
Proof.
  unfold overloadedCase. rewrite fst_log_then. cbv zeta.
  set (lastResort := try_catch (bind (log WARN "All fallbacks failed. Attempting to use overloaded Claude.") _) _).
  assert (Hlast : fst lastResort = orElse (fst (claudeModel session p "claude-3-7-sonnet-2025-02-19"))
          (Throw "No AI models available, Claude overloaded and fallbacks failed.")).
  { unfold lastResort.
    rewrite caught_orElse, fst_log_then. reflexivity. }
  set (tryPerplexity := if bool_decide (is_Some (env_or session p "PERPLEXITY_API_KEY")) then _ else lastResort).
  assert (Hperp : fst tryPerplexity = orElse (fst (perplexityFallbackModel session p)) (fst lastResort)).
  { unfold tryPerplexity. case_bool_decide as Hk.
    - rewrite caught_orElse, fst_log_then. reflexivity.
    - unfold perplexityFallbackModel. rewrite fst_bind, perplexity_client.
      destruct (env_or session p "PERPLEXITY_API_KEY"); [|reflexivity].
      exfalso; apply Hk; eauto. }
  rewrite <- Hlast, <- Hperp.
  destruct (String.eqb primaryProvider "GOOGLE" || _) eqn:Hc.
  - rewrite caught_orElse, fst_log_then. reflexivity.
  - apply orb_false_iff in Hc as [_ Hk]. apply bool_decide_eq_false in Hk.
    rewrite google_model. destruct (env_or session p "GOOGLE_API_KEY"); [|reflexivity].
    exfalso; apply Hk; eauto.
Qed.

Lemma default_result primaryProvider :
  fst (defaultCase session p primaryProvider) =
  let google := fst (googleModel session p) in
  let claude := fst (claudeModel session p "claude-3-7-sonnet-2025-02-19") in
  if String.eqb primaryProvider "GOOGLE"
  then orElse google (orElse claude (Throw noPrimary))
  else orElse claude
         (if String.eqb primaryProvider "ANTHROPIC"
          then orElse google (Throw noPrimary) else Throw noPrimary).
Proof.
  unfold defaultCase. rewrite caught_orElse. cbv zeta.
  destruct (String.eqb primaryProvider "GOOGLE") eqn:Hg.
  - apply String.eqb_eq in Hg as ->. f_equal.
    cbn [String.eqb Ascii.eqb Bool.eqb andb].
    case_bool_decide as Hk.
    + rewrite caught_orElse, fst_log_then. reflexivity.
    + rewrite claude_model.
      destruct (env_or session p "ANTHROPIC_API_KEY"); [|reflexivity].
      exfalso; apply Hk; eauto.
  - f_equal. cbn [andb].
    destruct (String.eqb primaryProvider "ANTHROPIC"); cbn [andb]; [|reflexivity].
    case_bool_decide as Hk.
    + rewrite caught_orElse, fst_log_then. reflexivity.
    + rewrite google_model.
      destruct (env_or session p "GOOGLE_API_KEY"); [|reflexivity].
      exfalso; apply Hk; eauto.
Qed.

Lemma best_result requiresResearch claudeOverloaded :
  fst (getBestAvailableAIModel session p requiresResearch claudeOverloaded) =
  let primaryProvider := primaryProviderOf session p in
  let afterResearch :=
    if claudeOverloaded
    then fst (overloadedCase session p primaryProvider)
    else fst (defaultCase session p primaryProvider) in
  if requiresResearch
  then
    match env_or session p "PERPLEXITY_API_KEY" with
    | None =>
        orElse
          (if String.eqb primaryProvider "GOOGLE"
           then fst (googleModel session p)
           else fst (claudeModel session p "claude-3-7-sonnet-20250219"))
          (Throw "No AI models available for research")
    | Some _ => orElse (fst (perplexityResearchModel session p)) afterResearch
    end
  else afterResearch.
Proof.
  unfold getBestAvailableAIModel. cbv zeta.
  destruct requiresResearch; cbn [andb negb];
    [|now destruct claudeOverloaded].
  destruct (env_or session p "PERPLEXITY_API_KEY") as [k|].
  - rewrite (bool_decide_eq_true_2 _) by eauto. cbn [negb].
    rewrite caught_orElse. now destruct claudeOverloaded.
  - rewrite (bool_decide_eq_false_2 _) by (intros [? [=]]). cbn [negb].
    rewrite caught_orElse, fst_log_then.
    now destruct (String.eqb (primaryProviderOf session p) "GOOGLE").
Qed.


Lemma perplexity_fallback_model :
  fst (perplexityFallbackModel session p) =
  match env_or session p "PERPLEXITY_API_KEY", openai_import_error p with
  | Some apiKey, None =>
      Return [("type", VStr "perplexity");
              ("client", VClient (OpenAI apiKey "https://api.perplexity.ai"));
              ("modelName",
               VStr (default "sonar-pro" (env_or session p "PERPLEXITY_MODEL")))]
  | Some _, Some message => Throw message
  | None, _ =>
      Throw "PERPLEXITY_API_KEY not found in session environment or process.env"
  end.
Proof.
  unfold perplexityFallbackModel. rewrite fst_bind, perplexity_client.
  destruct (env_or session p "PERPLEXITY_API_KEY"); [|reflexivity].
  now destruct (openai_import_error p).
Qed.

Lemma perplexity_research_model :
  fst (perplexityResearchModel session p) =
  match env_or session p "PERPLEXITY_API_KEY", openai_import_error p with
  | Some apiKey, None =>
      Return [("type", VStr "perplexity");
              ("client", VClient (OpenAI apiKey "https://api.perplexity.ai"))]
  | Some _, Some message => Throw message
  | None, _ =>
      Throw "PERPLEXITY_API_KEY not found in session environment or process.env"
  end.
Proof.
  unfold perplexityResearchModel. rewrite fst_bind, perplexity_client.
  destruct (env_or session p "PERPLEXITY_API_KEY"); [|reflexivity].
  now destruct (openai_import_error p).
Qed.

End Results.

Lemma orElse_returns {A} (P : A -> Prop) (a b : outcome A) :
  (forall h, a = Return h -> P h) -> (forall h, b = Return h -> P h) ->
  forall h, orElse a b = Return h -> P h.
Proof. destruct a; simpl; eauto. Qed.

Lemma throw_returns {A} (P : A -> Prop) message (h : A) :
  Throw message = Return h -> P h.
Proof. discriminate. Qed.

Section Shape.
Context (session : option Session) (p : Process).

Lemma google_full h : fst (googleModel session p) = Return h -> fullHandle h.
Proof.
  rewrite google_model. destruct (env_or _ _ "GOOGLE_API_KEY"); [|discriminate].
  intros [= <-]. unfold fullHandle. eauto.
Qed.

Lemma claude_full fallbackName h :
  fst (claudeModel session p fallbackName) = Return h -> fullHandle h.
Proof.
  rewrite claude_model. destruct (env_or _ _ "ANTHROPIC_API_KEY"); [|discriminate].
  intros [= <-]. unfold fullHandle. eauto.
Qed.

Lemma perplexity_fallback_full h :
  fst (perplexityFallbackModel session p) = Return h -> fullHandle h.
Proof.
  rewrite perplexity_fallback_model.
  destruct (env_or _ _ "PERPLEXITY_API_KEY"); [|discriminate].
  destruct (openai_import_error p); [discriminate|].
  intros [= <-]. unfold fullHandle. eauto.
Qed.

Lemma overloaded_full prim h :
  fst (overloadedCase session p prim) = Return h -> fullHandle h.
Proof.
  rewrite overloaded_result.
  repeat (apply orElse_returns;
          [first [apply google_full | apply perplexity_fallback_full
                 | apply claude_full]|]).
  apply throw_returns.
Qed.

Lemma default_full prim h :
  fst (defaultCase session p prim) = Return h -> fullHandle h.
Proof.
  rewrite default_result. cbv zeta.
  destruct (String.eqb prim "GOOGLE"), (String.eqb prim "ANTHROPIC");
    revert h;
    repeat (apply orElse_returns;
            [first [apply google_full | apply claude_full]|]);
    apply throw_returns.
Qed.
End Shape.

Lemma fullHandle_keys h :
  fullHandle h ->
  has "type" h = true /\ has "client" h = true /\ has "modelName" h = true /\
  forall key, has key h = true -> key ∈ ["type"; "client"; "modelName"].
Proof.
  intros (t & c & m & ->). repeat split. intros key. unfold has. cbn [get].
  destruct (String.eqb_spec "type" key) as [<-|_]; [repeat constructor|].
  destruct (String.eqb_spec "client" key) as [<-|_]; [repeat constructor|].
  destruct (String.eqb_spec "modelName" key) as [<-|_]; [repeat constructor|].
  discriminate.
Qed.

(** C9, as amended: every handle returned has a type tag and a client and
    no key other than type, client and modelName (generation parameters
    are not part of it); it has a model name whenever it is not the
    research path that binds Perplexity. *)
Theorem handle_keys session p requiresResearch claudeOverloaded h :
  fst (getBestAvailableAIModel session p requiresResearch claudeOverloaded)
  = Return h ->
  has "type" h = true /\ has "client" h = true /\
  (forall key, has key h = true -> key ∈ ["type"; "client"; "modelName"]) /\
  (requiresResearch = false \/ env_or session p "PERPLEXITY_API_KEY" = None
   \/ is_Some (openai_import_error p) ->
   has "modelName" h = true).
Proof.
  rewrite best_result. cbv zeta. intros H.
  assert (Hafter : forall h,
    (if claudeOverloaded
     then fst (overloadedCase session p (primaryProviderOf session p))
     else fst (defaultCase session p (primaryProviderOf session p))) = Return h ->
    fullHandle h).
  { destruct claudeOverloaded; [apply overloaded_full | apply default_full]. }
  assert (Hfull : forall h, fullHandle h -> 
    has "type" h = true /\ has "client" h = true /\
    (forall key, has key h = true -> key ∈ ["type"; "client"; "modelName"]) /\
    (requiresResearch = false \/ env_or session p "PERPLEXITY_API_KEY" = None
      \/ is_Some (openai_import_error p) -> has "modelName" h = true)).
  { intros h' Hf. apply fullHandle_keys in Hf as (? & ? & ? & ?). auto. }
  destruct requiresResearch; [|now apply Hfull, Hafter].
  destruct (env_or session p "PERPLEXITY_API_KEY") as [k|] eqn:Hk.
  - rewrite perplexity_research_model, Hk in H.
    destruct (openai_import_error p) as [m|] eqn:Hm.
    + now apply Hfull, Hafter.
    + injection H as <-. repeat split.
      * intros key. unfold has. cbn [get].
        destruct (String.eqb_spec "type" key) as [<-|_]; [repeat constructor|].
        destruct (String.eqb_spec "client" key) as [<-|_]; [repeat constructor|].
        discriminate.
      * intros [[=]|[[=]|[? [=]]]].
  - apply Hfull. revert h H. apply orElse_returns; [|apply throw_returns].
    destruct (String.eqb _ _); [apply google_full | apply claude_full].
Qed.

Lemma handle_keys_witness :
  let h := [("type", VStr "google");
            ("client", VClient (GoogleGenerativeAI "g-key"));
            ("modelName", VStr "gemini-2.5-pro-latest")] in
  has "type" h = true /\ has "client" h = true /\
  (forall key, has key h = true -> key ∈ ["type"; "client"; "modelName"]) /\
  (false = false \/ env_or None googleOnly "PERPLEXITY_API_KEY" = None
   \/ is_Some (openai_import_error googleOnly) ->
   has "modelName" h = true).
Proof.
  apply (handle_keys None googleOnly false true). reflexivity.
Defined.

(** C9 as stated fails: the handle of the research path has neither a
    model name nor parameters. *)
Lemma research_handle_has_no_model_name :
  exists h, fst (getBestAvailableAIModel None perplexityOnly true false) = Return h
    /\ has "modelName" h = false /\ has "maxTokens" h = false.
Proof. eexists. split; [reflexivity|]. split; reflexivity. Qed.

Section Failures.
Context (session : option Session) (p : Process).

Lemma overloaded_fails prim message :
  fst (overloadedCase session p prim) = Throw message ->
  env_or session p "ANTHROPIC_API_KEY" = None
  /\ env_or session p "GOOGLE_API_KEY" = None
  /\ (env_or session p "PERPLEXITY_API_KEY" = None
      \/ is_Some (openai_import_error p)).
Proof.
  rewrite overloaded_result, google_model, perplexity_fallback_model,
    claude_model.
  destruct (env_or session p "GOOGLE_API_KEY"); [discriminate|].
  destruct (env_or session p "PERPLEXITY_API_KEY");
    [destruct (openai_import_error p); [|discriminate]|];
    (destruct (env_or session p "ANTHROPIC_API_KEY"); [discriminate|]);
    intros _; eauto.
Qed.

Lemma default_fails prim message :
  fst (defaultCase session p prim) = Throw message ->
  env_or session p "ANTHROPIC_API_KEY" = None
  /\ (prim = "GOOGLE" \/ prim = "ANTHROPIC" ->
      env_or session p "GOOGLE_API_KEY" = None).
Proof.
  rewrite default_result. cbv zeta. rewrite google_model, claude_model.
  destruct (env_or session p "ANTHROPIC_API_KEY");
    [destruct (String.eqb prim "GOOGLE");
     [destruct (env_or session p "GOOGLE_API_KEY")|]; discriminate|].
  destruct (env_or session p "GOOGLE_API_KEY"); [|now intros _].
  destruct (String.eqb_spec prim "GOOGLE") as [->|Hg]; [discriminate|].
  destruct (String.eqb_spec prim "ANTHROPIC") as [->|Ha]; [discriminate|].
  intros _. split; [reflexivity|]. intros [?|?]; contradiction.
Qed.

End Failures.

(** C5, as amended: resolution fails either in the research fallback
    (research requested, no Perplexity key), which is final once the
    primary provider cannot be initialised, or after every tier of its
    path has failed: the Perplexity research tier when research was
    requested, then Google, Perplexity and Claude when Claude is
    overloaded, or the primary and the other family (for a primary of
    GOOGLE or ANTHROPIC) otherwise. *)
Theorem failure_after_all_tiers session p requiresResearch claudeOverloaded
    message :
  fst (getBestAvailableAIModel session p requiresResearch claudeOverloaded)
  = Throw message ->
  (requiresResearch = true /\ env_or session p "PERPLEXITY_API_KEY" = None
   /\ message = "No AI models available for research")
  \/
  ((requiresResearch = true ->
    is_Some (env_or session p "PERPLEXITY_API_KEY")
    /\ is_Some (openai_import_error p))
   /\ env_or session p "ANTHROPIC_API_KEY" = None
   /\ if claudeOverloaded
      then env_or session p "GOOGLE_API_KEY" = None
           /\ (env_or session p "PERPLEXITY_API_KEY" = None
               \/ is_Some (openai_import_error p))
      else primaryProviderOf session p = "GOOGLE"
           \/ primaryProviderOf session p = "ANTHROPIC" ->
           env_or session p "GOOGLE_API_KEY" = None).
Proof.
  rewrite best_result. cbv zeta.
  assert (Hafter :
    (if claudeOverloaded
     then fst (overloadedCase session p (primaryProviderOf session p))
     else fst (defaultCase session p (primaryProviderOf session p)))
    = Throw message ->
    env_or session p "ANTHROPIC_API_KEY" = None
    /\ if claudeOverloaded
       then env_or session p "GOOGLE_API_KEY" = None
            /\ (env_or session p "PERPLEXITY_API_KEY" = None
                \/ is_Some (openai_import_error p))
       else primaryProviderOf session p = "GOOGLE"
            \/ primaryProviderOf session p = "ANTHROPIC" ->
            env_or session p "GOOGLE_API_KEY" = None).
  { destruct claudeOverloaded; intros H.
    - apply overloaded_fails in H as (? & ? & ?). auto.
    - now apply default_fails in H. }
  destruct requiresResearch.
  - destruct (env_or session p "PERPLEXITY_API_KEY") as [k|] eqn:Hk.
    + rewrite perplexity_research_model, Hk.
      destruct (openai_import_error p) as [e|]; [|discriminate].
      cbn [orElse]. intros H. right. split; [eauto|]. now apply Hafter.
    + intros H. left. split; [reflexivity|]. split; [reflexivity|].
      destruct (if String.eqb _ _ then _ else _); [discriminate|].
      now injection H.
  - intros H. right. split; [discriminate|]. now apply Hafter.
Qed.

Lemma failure_after_all_tiers_witness :
  (false = true /\ env_or None noKeys "PERPLEXITY_API_KEY" = None
   /\ noPrimary = "No AI models available for research")
  \/
  ((false = true ->
    is_Some (env_or None noKeys "PERPLEXITY_API_KEY")
    /\ is_Some (openai_import_error noKeys))
   /\ env_or None noKeys "ANTHROPIC_API_KEY" = None
   /\ (primaryProviderOf None noKeys = "GOOGLE"
       \/ primaryProviderOf None noKeys = "ANTHROPIC" ->
       env_or None noKeys "GOOGLE_API_KEY" = None)).
Proof.
  apply (failure_after_all_tiers None noKeys false false noPrimary).
  reflexivity.
Defined.

(** C5 as stated fails: with a Google key only and research requested,
    the failure of the primary (Anthropic) ends resolution, although the
    default tier binds Google from the same environment. *)
Lemma research_fallback_aborts :
  fst (getBestAvailableAIModel None googleOnly true false)
  = Throw "No AI models available for research"
  /\ exists h, fst (getBestAvailableAIModel None googleOnly false false) = Return h
       /\ get "type" h = Some (VStr "google").
Proof. split; [reflexivity|]. eexists. split; reflexivity. Qed.

(** C4, as amended: when research is requested and no Perplexity key is
    configured, resolution returns the handle of the primary family
    (Google when AI_PROVIDER is GOOGLE, Claude otherwise) provided that
    family's API key is configured; without it, resolution fails with
    the message No AI models available for research. *)
Theorem research_without_perplexity session p claudeOverloaded :
  env_or session p "PERPLEXITY_API_KEY" = None ->
  fst (getBestAvailableAIModel session p true claudeOverloaded) =
  if String.eqb (primaryProviderOf session p) "GOOGLE"
  then
    match env_or session p "GOOGLE_API_KEY" with
    | Some apiKey =>
        Return [("type", VStr "google");
                ("client", VClient (GoogleGenerativeAI apiKey));
                ("modelName",
                 VStr (default "gemini-2.5-pro-latest"
                         (env_or session p "GEMINI_MODEL")))]
    | None => Throw "No AI models available for research"
    end
  else
    match env_or session p "ANTHROPIC_API_KEY" with
    | Some apiKey =>
        Return [("type", VStr "claude");
                ("client",
                 VClient (Anthropic apiKey
                            [("anthropic-beta", "output-128k-2025-02-19")]));
                ("modelName",
                 VStr (default "claude-3-7-sonnet-20250219"
                         (env_or session p "MODEL")))]
    | None => Throw "No AI models available for research"
    end.
Proof.
  intros Hk. rewrite best_result. cbv zeta. rewrite Hk.
  destruct (String.eqb _ "GOOGLE").
  - rewrite google_model. now destruct (env_or session p "GOOGLE_API_KEY").
  - rewrite claude_model. now destruct (env_or session p "ANTHROPIC_API_KEY").
Qed.

Lemma research_without_perplexity_witness :
  fst (getBestAvailableAIModel None anthropicOnly true false) =
  Return [("type", VStr "claude");
          ("client",
           VClient (Anthropic "a-key"
                      [("anthropic-beta", "output-128k-2025-02-19")]));
          ("modelName", VStr "claude-3-7-sonnet-20250219")].
Proof.
  apply (research_without_perplexity None anthropicOnly false). reflexivity.
Defined.

(** C4 as stated fails: with no key at all, research requested, the
    resolver throws. *)
Lemma research_without_any_key_fails :
  env_or None noKeys "PERPLEXITY_API_KEY" = None /\
  fst (getBestAvailableAIModel None noKeys true false) =
  Throw "No AI models available for research".
Proof. split; reflexivity. Qed.

(** With no research requested and Claude overloaded, the resolver
    returns what the first of Google, Perplexity (as a plain completion
    source, with a model name) and Claude returns, in this order, and
    throws only when all three throw. The log announces the providers it
    tries in this order, and the last one announced is the one bound
    (Claude when nothing is bound). *)
Lemma overloaded_order session p :
  let r := getBestAvailableAIModel session p false true in
  fst r =
    orElse (fst (googleModel session p))
      (orElse (fst (perplexityFallbackModel session p))
         (orElse (fst (claudeModel session p "claude-3-7-sonnet-2025-02-19"))
            (Throw "No AI models available, Claude overloaded and fallbacks failed.")))
  /\ sublist (attempts (snd r)) ["google"; "perplexity"; "claude"]
  /\ last (attempts (snd r)) = Some (typeOf (fst r)).
Proof.
  cbv zeta. split.
  { rewrite best_result. cbv zeta. apply overloaded_result. }
  unfold getBestAvailableAIModel. cbn [andb]. cbv zeta.
  generalize (primaryProviderOf session p). intros prim.
  unfold overloadedCase, googleModel, perplexityFallbackModel, claudeModel,
    getGoogleClientForMCP, getPerplexityClientForMCP, getAnthropicClientForMCP.
  destruct (String.eqb prim "GOOGLE");
  destruct (env_or session p "GOOGLE_API_KEY");
  destruct (env_or session p "PERPLEXITY_API_KEY");
  destruct (env_or session p "ANTHROPIC_API_KEY");
  destruct (openai_import_error p);
  (split; [lazy|reflexivity]);
  eauto 6 using sublist_nil, sublist_cons, sublist_skip.
Qed.

Import AiClientUtilsMore.

(** The providers the overload path announces, from the settings: Google
    when it is the primary or has a key; when Google has no key,
    Perplexity if it has one, and then Claude unless Perplexity was
    bound. *)
Lemma overloaded_attempts session p :
  let google := bool_decide (is_Some (env_or session p "GOOGLE_API_KEY")) in
  let perplexityKey :=
    bool_decide (is_Some (env_or session p "PERPLEXITY_API_KEY")) in
  let perplexity :=
    perplexityKey
    && match openai_import_error p with None => true | Some _ => false end in
  attempts (snd (getBestAvailableAIModel session p false true))
  = (if String.eqb (primaryProviderOf session p) "GOOGLE" || google
     then ["google"] else [])
    ++ (if google then []
        else (if perplexityKey then ["perplexity"] else [])
             ++ (if perplexity then [] else ["claude"])).
Proof.
  cbv zeta. unfold getBestAvailableAIModel. cbn [andb]. cbv zeta.
  generalize (primaryProviderOf session p). intros prim.
  unfold overloadedCase, googleModel, perplexityFallbackModel, claudeModel,
    getGoogleClientForMCP, getPerplexityClientForMCP, getAnthropicClientForMCP.
  destruct (String.eqb prim "GOOGLE");
  destruct (env_or session p "GOOGLE_API_KEY");
  destruct (env_or session p "PERPLEXITY_API_KEY");
  destruct (env_or session p "ANTHROPIC_API_KEY");
  destruct (openai_import_error p);
  lazy; reflexivity.
Qed.

(** C6, as amended: with no research requested, Claude overloaded and a
    primary other than GOOGLE, the resolver tries, in this order and up to
    the first that binds, the alternate family (Google) if its key is set,
    Perplexity as a plain completion source if its key is set, and the
    overloaded primary (Claude) as last resort; it binds the last one it
    tried, and throws only when all three throw. *)
Theorem overloaded_order_by_role session p :
  primaryProviderOf session p <> "GOOGLE" ->
  let prim := primaryProviderOf session p in
  let r := getBestAvailableAIModel session p false true in
  let alternate := fst (googleModel session p) in
  let research := fst (perplexityFallbackModel session p) in
  let primary := fst (claudeModel session p "claude-3-7-sonnet-2025-02-19") in
  alternateFamily prim = "google" /\ primaryFamily prim = "claude"
  /\ fst r =
       orElse alternate
         (orElse research
            (orElse primary
               (Throw "No AI models available, Claude overloaded and fallbacks failed.")))
  /\ attempts (snd r) =
       (if bool_decide (is_Some (env_or session p "GOOGLE_API_KEY"))
        then [alternateFamily prim]
        else (if bool_decide (is_Some (env_or session p "PERPLEXITY_API_KEY"))
              then ["perplexity"] else [])
             ++ (match research with
                 | Return _ => []
                 | Throw _ => [primaryFamily prim]
                 end))
  /\ last (attempts (snd r)) = Some (typeOf (fst r)).
Proof.
  intros Hg. cbv zeta. apply String.eqb_neq in Hg.
  destruct (overloaded_order session p) as (Hres & _ & Hlast).
  unfold alternateFamily, primaryFamily. rewrite Hg.
  split; [reflexivity|]. split; [reflexivity|]. split; [exact Hres|].
  split; [|exact Hlast].
  rewrite (overloaded_attempts session p). cbv zeta. rewrite Hg. cbn [orb].
  rewrite perplexity_fallback_model.
  destruct (env_or session p "GOOGLE_API_KEY");
    destruct (env_or session p "PERPLEXITY_API_KEY");
    destruct (openai_import_error p); reflexivity.
Qed.

Lemma overloaded_order_by_role_witness :
  let r := getBestAvailableAIModel None perplexityOnly false true in
  alternateFamily (primaryProviderOf None perplexityOnly) = "google"
  /\ primaryFamily (primaryProviderOf None perplexityOnly) = "claude"
  /\ fst r =
       orElse (fst (googleModel None perplexityOnly))
         (orElse (fst (perplexityFallbackModel None perplexityOnly))
            (orElse
               (fst (claudeModel None perplexityOnly
                       "claude-3-7-sonnet-2025-02-19"))
               (Throw "No AI models available, Claude overloaded and fallbacks failed.")))
  /\ attempts (snd r) = ["perplexity"]
  /\ last (attempts (snd r)) = Some (typeOf (fst r)).
Proof.
  apply (overloaded_order_by_role None perplexityOnly). discriminate.
Defined.

(** C6 as stated fails: with GOOGLE as primary and every key set, the
    only provider tried is the primary itself, first and not as a last
    resort, and the alternate family (Claude), although configured, is
    never tried. *)
Lemma overloaded_google_primary_first :
  let prim := primaryProviderOf googlePrimary allKeys in
  let r := getBestAvailableAIModel googlePrimary allKeys false true in
  prim = "GOOGLE"
  /\ is_Some (env_or googlePrimary allKeys "ANTHROPIC_API_KEY")
  /\ attempts (snd r) = [primaryFamily prim]
  /\ attempts (snd r) <> [alternateFamily prim]
  /\ typeOf (fst r) = primaryFamily prim.
Proof.
  cbv zeta. split; [reflexivity|]. split; [eexists; reflexivity|].
  split; [reflexivity|]. split; [discriminate|reflexivity].
Qed.
End AiClientUtilsFacts.

(** ** Task expansion *)

Module ExpandTaskFacts.
Import ExpandTask.

Lemma withSubtasks_same subs t :
  Task.subtasks t = Some subs -> withSubtasks subs t = t.
Proof. destruct t; simpl; intros ->; reflexivity. Qed.

Lemma setSubtasks_same taskId subs ts t :
  findTask taskId ts = Some t -> Task.subtasks t = Some subs ->
  setSubtasks taskId subs ts = ts.
Proof.
  unfold findTask. induction ts as [|u ts IH]; simpl; [discriminate|].
  destruct (Task.id u =? taskId).
  - intros [= ->] Hs. now rewrite withSubtasks_same.
  - intros Hf Hs. now rewrite IH.
Qed.

Lemma setSubtasks_changed taskId subs ts t :
  findTask taskId ts = Some t -> Task.subtasks t <> Some subs ->
  setSubtasks taskId subs ts <> ts.
Proof.
  unfold findTask. induction ts as [|u ts IH]; simpl; [discriminate|].
  destruct (Task.id u =? taskId).
  - intros [= ->] Hs [= E]. apply Hs. rewrite <- E. reflexivity.
  - intros Hf Hs [= E]. now apply IH.
Qed.

Lemma findTask_id taskId ts t :
  findTask taskId ts = Some t -> Task.id t = taskId.
Proof.
  unfold findTask. intros H. apply find_some in H as [_ H].
  now apply Z.eqb_eq.
Qed.

Example parseInt_examples :
  parseInt (Str "  -12px") = Int (-12) /\ parseInt (Str "+7") = Int 7
  /\ parseInt (Str "0") = Int 0 /\ parseInt (Str "three") = NaN
  /\ parseInt (Str "-") = NaN /\ parseInt (Num 42) = Int 42.
Proof. repeat split. Qed.

(** The scenario of a pending task without subtasks, expanded into three:
    the store holds them, the backup is gone. *)
Example expand_build_api :
  let task := buildApi "pending" (Some []) in
  let r := expandTaskDirect helpful (store task) (expandArgs (Num 3) None) in
  get "success" (result r) = Some (VBool true)
  /\ (exists data,
        get "data" (result r) = Some (VObj data)
        /\ get "subtasksAdded" data = Some (VNum 3)
        /\ get "totalSubtasks" data = Some (VNum 3)
        /\ get "task" data = Some (VTask task))
  /\ files r =
       store (buildApi "pending"
                (Some [subtaskNo 1; subtaskNo 2; subtaskNo 3])).
Proof.
  cbv zeta. split; [reflexivity|]. split.
  - eexists. repeat split.
  - reflexivity.
Qed.

Lemma terminal_test t :
  String.eqb (Task.status t) "done" || String.eqb (Task.status t) "completed"
  = true <-> terminal t.
Proof.
  unfold terminal. rewrite orb_true_iff, !String.eqb_eq. reflexivity.
Qed.

(** Once a call has reached its task, what is left of [expandTaskDirect]:
    the status guard, the skip, and the request made on the prepared
    store. *)
Lemma expand_reaches svc fs args tasksPath taskId tasks0 task :
  Reaches fs args tasksPath taskId tasks0 task ->
  expandTaskDirect svc fs args =
  let stop r := {| result := r; files := fs; calls := [] |} in
  if String.eqb (Task.status task) "done"
     || String.eqb (Task.status task) "completed"
  then
    stop (failure "TASK_COMPLETED"
            ("Task " +:+ pretty taskId +:+ " is already marked as "
             +:+ Task.status task +:+ " and cannot be expanded"))
  else
  let forceFlag := bool_decide (force args = Some true) in
  if hasSubtasks task && negb forceFlag
  then
    stop (success
            [("message", VStr ("Task " +:+ pretty taskId
                               +:+ " already has subtasks. Expansion skipped."));
             ("task", VTask task);
             ("subtasksAdded", VNum 0);
             ("hasExistingSubtasks", VBool (hasSubtasks task))])
  else
  let backupPath := join (dirname tasksPath) "tasks.json.bak" in
  processRequest svc
    (writeJSON (<[backupPath := JsonFile {| tasks := Some tasks0 |}]> fs)
       tasksPath {| tasks := Some (setSubtasks taskId [] tasks0) |})
    tasksPath backupPath taskId (setSubtasks taskId [] tasks0)
    (withSubtasks [] task)
    (if hasSubtasks task && forceFlag then withSubtasks [] task else task)
    (numSubtasksOf (num args)) (bool_decide (research args = Some true))
    (default EmptyString (prompt args)).
Proof.
  intros [Hp Hi Hz Hf Ht]. unfold expandTaskDirect.
  rewrite Hp, Hi. apply Z.eqb_neq in Hz. rewrite Hz.
  unfold readJSON, copyFileSync. rewrite Hf. cbn [mbind option_bind tasks].
  rewrite Ht. cbv zeta.
  destruct (_ || _); [reflexivity|].
  unfold hasSubtasks.
  destruct (Task.subtasks task) as [[|s l]|] eqn:Hs.
  - cbn [andb]. rewrite Hs. rewrite (bool_decide_eq_false_2 _) by congruence.
    rewrite (setSubtasks_same _ _ _ _ Ht Hs), (withSubtasks_same _ _ Hs).
    reflexivity.
  - destruct (bool_decide (force args = Some true)); cbn [andb negb]; [|reflexivity].
    cbn [withSubtasks Task.subtasks].
    rewrite (bool_decide_eq_false_2 _) by congruence. reflexivity.
  - cbn [andb]. rewrite Hs. rewrite (bool_decide_eq_true_2 _) by reflexivity.
    reflexivity.
Qed.

Lemma messageOr_nonempty message : messageOr message <> EmptyString.
Proof.
  unfold messageOr. destruct (String.eqb_spec message EmptyString); [discriminate|assumption].
Qed.

(** C2: when the task a call reaches has status done or completed, the
    call returns the failure TASK_COMPLETED, leaves the file system as
    it was (no backup, no write) and does not call the provider. *)
Theorem terminal_status_guard svc fs args tasksPath taskId tasks0 task :
  Reaches fs args tasksPath taskId tasks0 task ->
  terminal task ->
  let r := expandTaskDirect svc fs args in
  result r =
    failure "TASK_COMPLETED"
      ("Task " +:+ pretty taskId +:+ " is already marked as "
       +:+ Task.status task +:+ " and cannot be expanded")
  /\ files r = fs /\ calls r = [].
Proof.
  intros Hr Ht. cbv zeta. rewrite (expand_reaches _ _ _ _ _ _ _ Hr). cbv zeta.
  apply terminal_test in Ht. rewrite Ht. repeat split.
Qed.

Lemma terminal_status_guard_witness :
  let r := expandTaskDirect garbled (store (buildApi "done" None))
             (expandArgs Undefined (Some true)) in
  result r =
    failure "TASK_COMPLETED"
      "Task 3 is already marked as done and cannot be expanded"
  /\ files r = store (buildApi "done" None) /\ calls r = [].
Proof.
  apply (terminal_status_guard garbled (store (buildApi "done" None))
           (expandArgs Undefined (Some true)) tasksJson 3
           [buildApi "done" None] (buildApi "done" None)).
  - split; [reflexivity | reflexivity | discriminate | reflexivity
           | reflexivity].
  - left. reflexivity.
Defined.

(** C3, as amended: for a task that is neither done nor completed, has at
    least one subtask, and is expanded without force, the call returns
    success with subtasksAdded = 0 and leaves the file system as it was;
    a second call, on the files the first one left, returns the same. *)
Theorem skip_is_idempotent svc svc' fs args tasksPath taskId tasks0 task :
  Reaches fs args tasksPath taskId tasks0 task ->
  ~ terminal task ->
  hasSubtasks task = true ->
  force args <> Some true ->
  let r := expandTaskDirect svc fs args in
  get "success" (result r) = Some (VBool true)
  /\ (exists data, get "data" (result r) = Some (VObj data)
                   /\ get "subtasksAdded" data = Some (VNum 0))
  /\ files r = fs /\ calls r = []
  /\ expandTaskDirect svc' (files r) args = r.
Proof.
  intros Hr Ht Hs Hf. cbv zeta.
  assert (E : forall svc, expandTaskDirect svc fs args =
    {| result := success
         [("message", VStr ("Task " +:+ pretty taskId
                            +:+ " already has subtasks. Expansion skipped."));
          ("task", VTask task); ("subtasksAdded", VNum 0);
          ("hasExistingSubtasks", VBool true)];
       files := fs; calls := [] |}).
  { intros svc0. rewrite (expand_reaches _ _ _ _ _ _ _ Hr). cbv zeta.
    destruct (_ || _) eqn:Hd; [apply terminal_test in Hd; contradiction|].
    rewrite Hs, (bool_decide_eq_false_2 _ Hf). reflexivity. }
  rewrite (E svc). cbn [result files calls]. rewrite (E svc').
  repeat split. eexists. split; reflexivity.
Qed.

Lemma skip_is_idempotent_witness :
  let fs := store (buildApi "pending" (Some [design])) in
  let r := expandTaskDirect garbled fs (expandArgs Undefined None) in
  get "success" (result r) = Some (VBool true)
  /\ (exists data, get "data" (result r) = Some (VObj data)
                   /\ get "subtasksAdded" data = Some (VNum 0))
  /\ files r = fs /\ calls r = []
  /\ expandTaskDirect garbled (files r) (expandArgs Undefined None) = r.
Proof.
  apply (skip_is_idempotent garbled garbled
           (store (buildApi "pending" (Some [design])))
           (expandArgs Undefined None) tasksJson 3
           [buildApi "pending" (Some [design])]
           (buildApi "pending" (Some [design]))).
  - split; [reflexivity | reflexivity | discriminate | reflexivity
           | reflexivity].
  - intros [H|H]; discriminate H.
  - reflexivity.
  - discriminate.
Defined.

(** C3 as stated fails: a done task with a subtask, expanded with
    force = false, is refused with TASK_COMPLETED. *)
Lemma skip_refused_for_done_task :
  let task := buildApi "done" (Some [design]) in
  let r := expandTaskDirect garbled (store task)
             (expandArgs Undefined (Some false)) in
  Task.subtasks task = Some [design]
  /\ get "success" (result r) = Some (VBool false)
  /\ result r =
       failure "TASK_COMPLETED"
         "Task 3 is already marked as done and cannot be expanded".
Proof. repeat split. Qed.

Lemma processRequest_fails svc fs2 tasksPath backupPath taskId tasks2 task2
    originalTask numSubtasks useResearch additionalContext :
  generationFails svc task2 numSubtasks useResearch additionalContext = true ->
  let r := processRequest svc fs2 tasksPath backupPath taskId tasks2 task2
             originalTask numSubtasks useResearch additionalContext in
  (exists message,
     result r = failure "CORE_FUNCTION_ERROR" message
     /\ message <> EmptyString)
  /\ files r = fs2.
Proof.
  unfold generationFails, processRequest. cbv zeta.
  destruct (callAIProvider svc _ _) as [text|e]; cbn [result files].
  - destruct (parseSubtasksFromText svc _ _ _ _) as [[[|s l]|]|e];
      cbn [result files]; try discriminate; intros _;
      (split; [eexists; split; [reflexivity|apply messageOr_nonempty]
              |reflexivity]).
  - intros _. split; [|reflexivity].
    eexists; split; [reflexivity|apply messageOr_nonempty].
Qed.

(** C1, as amended: when the provider call or the parsing fails, the call
    returns the failure CORE_FUNCTION_ERROR; the backup file is kept and
    holds what the store file held before the call; the store file holds
    the tasks with the subtasks of the target task set to the empty list,
    so it holds what it held before exactly when that task had an empty
    list of subtasks. *)
Theorem failed_generation_keeps_backup svc fs args tasksPath taskId tasks0
    task :
  Reaches fs args tasksPath taskId tasks0 task ->
  ~ terminal task ->
  (hasSubtasks task = true -> force args = Some true) ->
  generationFails svc (withSubtasks [] task) (numSubtasksOf (num args))
    (bool_decide (research args = Some true))
    (default EmptyString (prompt args)) = true ->
  let r := expandTaskDirect svc fs args in
  let backupPath := join (dirname tasksPath) "tasks.json.bak" in
  (exists message, result r = failure "CORE_FUNCTION_ERROR" message)
  /\ files r =
       <[tasksPath := JsonFile {| tasks := Some (setSubtasks taskId [] tasks0) |}]>
         (<[backupPath := JsonFile {| tasks := Some tasks0 |}]> fs)
  /\ (backupPath <> tasksPath -> files r !! backupPath = fs !! tasksPath)
  /\ (files r !! tasksPath = fs !! tasksPath
      <-> Task.subtasks task = Some []).
Proof.
  intros Hr Ht Hforce Hgen. cbv zeta.
  rewrite (expand_reaches _ _ _ _ _ _ _ Hr). cbv zeta.
  destruct (_ || _) eqn:Hd; [apply terminal_test in Hd; contradiction|].
  assert (Hskip : hasSubtasks task
                  && negb (bool_decide (force args = Some true)) = false).
  { destruct (hasSubtasks task); [|reflexivity].
    rewrite (bool_decide_eq_true_2 _ (Hforce eq_refl)). reflexivity. }
  rewrite Hskip.
  match goal with |- context [processRequest ?a ?b ?c ?d ?e ?f ?g ?h ?i ?j ?k] =>
    destruct (processRequest_fails a b c d e f g h i j k Hgen)
      as [(message & Hres & _) Hfiles] end.
  cbv zeta in Hfiles. rewrite Hres, Hfiles. unfold writeJSON.
  destruct Hr as [_ _ _ Hfile Hfind].
  split; [eauto|]. split; [reflexivity|]. split.
  - intros Hne. rewrite lookup_insert_ne by congruence.
    rewrite lookup_insert_eq. symmetry. exact Hfile.
  - rewrite lookup_insert_eq, Hfile. split.
    + intros [= E].
      destruct (Task.subtasks task) as [[|s l]|] eqn:Hs; [reflexivity| |];
        exfalso; revert E; apply (setSubtasks_changed _ _ _ _ Hfind);
        rewrite Hs; discriminate.
    + intros Hs. now rewrite (setSubtasks_same _ _ _ _ Hfind Hs).
Qed.

Lemma failed_generation_keeps_backup_witness :
  let task := buildApi "pending" None in
  let r := expandTaskDirect garbled (store task) (expandArgs Undefined None) in
  let backupPath := join (dirname tasksJson) "tasks.json.bak" in
  (exists message, result r = failure "CORE_FUNCTION_ERROR" message)
  /\ files r =
       <[tasksJson := JsonFile {| tasks := Some (setSubtasks 3 [] [task]) |}]>
         (<[backupPath := JsonFile {| tasks := Some [task] |}]> (store task))
  /\ (backupPath <> tasksJson -> files r !! backupPath = store task !! tasksJson)
  /\ (files r !! tasksJson = store task !! tasksJson
      <-> Task.subtasks task = Some []).
Proof.
  apply (failed_generation_keeps_backup garbled
           (store (buildApi "pending" None)) (expandArgs Undefined None)
           tasksJson 3 [buildApi "pending" None] (buildApi "pending" None)).
  - split; [reflexivity | reflexivity | discriminate | reflexivity
           | reflexivity].
  - intros [H|H]; discriminate H.
  - discriminate.
  - reflexivity.
Defined.

(** C1 as stated fails: under force, a failed generation leaves the store
    file without the subtasks the task had. *)
Lemma forced_failure_empties_store :
  let task := buildApi "pending" (Some [design]) in
  let r := expandTaskDirect garbled (store task)
             (expandArgs Undefined (Some true)) in
  result r =
    failure "CORE_FUNCTION_ERROR" "AI did not return valid subtasks."
  /\ store task !! tasksJson = Some (JsonFile {| tasks := Some [task] |})
  /\ files r !! tasksJson
     = Some (JsonFile {| tasks := Some [buildApi "pending" (Some [])] |})
  /\ files r !! tasksJson <> store task !! tasksJson.
Proof.
  cbv zeta. split; [reflexivity|]. split; [reflexivity|].
  split; [reflexivity|]. discriminate.
Qed.

Ltac failure_shape :=
  left; split;
  [ reflexivity
  | eexists _, _; split;
    [ reflexivity
    | split; [ repeat constructor
             | first [ apply messageOr_nonempty | discriminate ] ] ] ].

(** C7, as amended: a call returns a failure whose code is one of the seven
    codes and whose message is not empty, or a success; the data of a
    success after generation has message, task, newSubtasks,
    subtasksAdded and totalSubtasks, and the data of the skip has
    message, task, subtasksAdded = 0 and hasExistingSubtasks = true, and
    neither newSubtasks nor totalSubtasks. *)
Theorem result_shape svc fs args :
  let r := expandTaskDirect svc fs args in
  isFailure (result r)
  \/ (get "success" (result r) = Some (VBool true)
      /\ exists data,
           get "data" (result r) = Some (VObj data)
           /\ ((expandedData data /\ calls r <> [])
               \/ (skippedData data /\ calls r = [] /\ files r = fs))).
Proof.
  cbv zeta. unfold expandTaskDirect. cbv zeta.
  destruct (tasksJsonPath args) as [tasksPath|]; [|failure_shape].
  destruct (taskIdOf (id args)) as [[|taskId]|]; [failure_shape| |failure_shape].
  destruct (taskId =? 0); [failure_shape|].
  destruct (readJSON fs tasksPath ≫= tasks) as [tasks0|]; [|failure_shape].
  destruct (findTask taskId tasks0) as [task|]; [|failure_shape].
  destruct (_ || _); [failure_shape|].
  destruct (hasSubtasks task && negb _) eqn:Hskip.
  { right. split; [reflexivity|]. eexists. split; [reflexivity|].
    right. apply andb_true_iff in Hskip as [-> _]. repeat split. }
  destruct (copyFileSync fs tasksPath _) as [fs1|e]; [|failure_shape].
  unfold processRequest. cbv zeta.
  destruct (callAIProvider svc _ _) as [text|e]; [|failure_shape].
  destruct (parseSubtasksFromText svc _ _ _ _) as [[[|s l]|]|e];
    try failure_shape.
  destruct (unlinkSync _ _) as [fs4|e]; [|failure_shape].
  right. split; [reflexivity|]. eexists. split; [reflexivity|].
  left. repeat split. discriminate.
Qed.

(** C7 as stated fails: the success of the skip has neither newSubtasks
    nor totalSubtasks. *)
Lemma skip_result_lacks_fields :
  let r := expandTaskDirect garbled (store (buildApi "pending" (Some [design])))
             (expandArgs Undefined None) in
  get "success" (result r) = Some (VBool true)
  /\ exists data, get "data" (result r) = Some (VObj data)
       /\ has "newSubtasks" data = false /\ has "totalSubtasks" data = false.
Proof.
  cbv zeta. split; [reflexivity|]. eexists. repeat split.
Qed.

Lemma append_assoc (a b c : string) : (a +:+ b) +:+ c = a +:+ (b +:+ c).
Proof.
  induction a as [|x a IH]; [reflexivity|].
  change (String x ((a +:+ b) +:+ c) = String x (a +:+ (b +:+ c))).
  f_equal. exact IH.
Qed.

Lemma starts_here s after : startsWith s (s +:+ after).
Proof. now exists after. Qed.

Lemma starts_same s : startsWith s s.
Proof.
  exists EmptyString. induction s as [|x s IH]; [reflexivity|].
  change (String x s = String x (s +:+ EmptyString)). f_equal. exact IH.
Qed.

Lemma starts_cons a s text :
  startsWith s text -> startsWith (a +:+ s) (a +:+ text).
Proof. intros [after ->]. exists after. now rewrite append_assoc. Qed.

Lemma occurs_start s text : startsWith s text -> occursIn s text.
Proof. intros [after ->]. now exists EmptyString, after. Qed.

Lemma occurs_later a s text : occursIn s text -> occursIn s (a +:+ text).
Proof.
  intros (before & after & ->). exists (a +:+ before), after.
  now rewrite append_assoc.
Qed.

Lemma occurs_left s a b : occursIn s a -> occursIn s (a +:+ b).
Proof.
  intros (before & after & ->). exists before, (after +:+ b).
  now rewrite !append_assoc.
Qed.

Ltac starts :=
  first [ apply starts_here | apply starts_same | apply starts_cons; starts ].
Ltac occurs :=
  first [ apply occurs_start; starts | apply occurs_later; occurs ].

Import ExpandTaskMore.

(** The request of a call that gets past the status guard and the skip:
    one, for the task with its subtasks emptied. *)
Lemma calls_reached svc fs args tasksPath taskId tasks0 task :
  Reaches fs args tasksPath taskId tasks0 task ->
  ~ terminal task ->
  (hasSubtasks task = true -> force args = Some true) ->
  calls (expandTaskDirect svc fs args)
  = [(fullPrompt (withSubtasks [] task)
        (subtaskCountOf (numSubtasksOf (num args)))
        (default EmptyString (prompt args)),
      bool_decide (research args = Some true))].
Proof.
  intros Hr Ht Hforce. rewrite (expand_reaches _ _ _ _ _ _ _ Hr). cbv zeta.
  destruct (_ || _) eqn:Hd; [apply terminal_test in Hd; contradiction|].
  assert (Hskip : hasSubtasks task
                  && negb (bool_decide (force args = Some true)) = false).
  { destruct (hasSubtasks task); [|reflexivity].
    rewrite (bool_decide_eq_true_2 _ (Hforce eq_refl)). reflexivity. }
  rewrite Hskip. unfold processRequest. cbv zeta.
  destruct (callAIProvider svc _ _) as [text|e]; [|reflexivity].
  destruct (parseSubtasksFromText svc _ _ _ _) as [[[|s l]|]|e];
    try reflexivity.
  destruct (unlinkSync _ _); reflexivity.
Qed.

(** The count is the number that [num] parses to, when it is not 0. *)
Lemma subtaskCount_supplied num n :
  parseInt num = Int n -> n <> 0 -> subtaskCountOf (numSubtasksOf num) = n.
Proof.
  intros Hp Hn. unfold numSubtasksOf.
  assert (Ht : truthy_val num = true).
  { destruct num as [|m|s]; [discriminate Hp| |].
    - injection Hp as ->. cbn [truthy_val]. now apply Z.eqb_neq in Hn as ->.
    - cbn [truthy_val]. destruct (String.eqb_spec s EmptyString) as [->|];
        [discriminate Hp|reflexivity]. }
  rewrite Ht, Hp. cbn [subtaskCountOf]. now apply Z.eqb_neq in Hn as ->.
Qed.

(** What the prompt holds, for any task, count and context. *)
Lemma prompt_text task subtaskCount additionalContext :
  let nextId := Z.of_nat (length (default [] (Task.subtasks task))) + 1 in
  let text := fullPrompt task subtaskCount additionalContext in
  occursIn ("Return exactly " +:+ pretty subtaskCount
            +:+ " subtasks with the following JSON structure:") text
  /\ occursIn ("5. Have appropriate dependency chains between subtasks (use numerical IDs starting from "
               +:+ pretty nextId +:+ ")") text
  /\ occursIn (dq +:+ "id" +:+ dq +:+ ": " +:+ pretty nextId +:+ ",") text
  /\ occursIn (dq +:+ "title" +:+ dq +:+ ": ") text
  /\ occursIn (dq +:+ "description" +:+ dq +:+ ": ") text
  /\ occursIn (dq +:+ "dependencies" +:+ dq +:+ ": [],") text
  /\ occursIn (dq +:+ "details" +:+ dq +:+ ": ") text
  /\ occursIn ("Break down this task into " +:+ pretty subtaskCount
               +:+ " subtasks:" +:+ nl
               +:+ "Task ID: " +:+ pretty (Task.id task) +:+ nl
               +:+ "Title: " +:+ Task.title task +:+ nl
               +:+ "Description: " +:+ Task.description task +:+ nl
               +:+ "Details: ") text
  /\ (additionalContext <> EmptyString ->
      occursIn ("Additional context: " +:+ additionalContext) text)
  /\ (forall other, samePromptFields task other ->
        fullPrompt other subtaskCount additionalContext = text).
Proof.
  cbv zeta.
  repeat (split; [apply occurs_left; unfold systemPrompt; occurs|]).
  split; [|split].
  - unfold fullPrompt, userPrompt. do 3 apply occurs_later.
    apply occurs_start. starts.
  - intros H. apply String.eqb_neq in H.
    unfold fullPrompt, userPrompt, contextPrompt. rewrite H. occurs.
  - intros other (H1 & H2 & H3 & H4 & H5).
    unfold fullPrompt, userPrompt, nextSubtaskIdOf.
    now rewrite H1, H2, H3, H4, H5.
Qed.

(** C8: a call that gets as far as the provider sends it one prompt, built
    from the task (its subtasks emptied), the count and the context of
    the call alone. The count is the number supplied, and 5 when none is.
    For any task, count and context, the prompt asks for exactly [count]
    subtasks, names the id to start from, which is the number of subtasks
    of the task plus one, shows the fields id, title, description,
    dependencies and details, names the task by its id, title and
    description, carries the context, and is the same for any task with
    the same id, title, description, details and number of subtasks. *)
Theorem prompt_contract svc fs args tasksPath taskId tasks0 task :
  Reaches fs args tasksPath taskId tasks0 task ->
  ~ terminal task ->
  (hasSubtasks task = true -> force args = Some true) ->
  let subtaskCount := subtaskCountOf (numSubtasksOf (num args)) in
  calls (expandTaskDirect svc fs args)
  = [(fullPrompt (withSubtasks [] task) subtaskCount
        (default EmptyString (prompt args)),
      bool_decide (research args = Some true))]
  /\ (num args = Undefined -> subtaskCount = 5)
  /\ (forall n, parseInt (num args) = Int n -> n <> 0 -> isSafeInteger n ->
        subtaskCount = n)
  /\ forall (t : Task.t) (count : Z) (context : string),
       let nextId := Z.of_nat (length (default [] (Task.subtasks t))) + 1 in
       let text := fullPrompt t count context in
       occursIn ("Return exactly " +:+ pretty count
                 +:+ " subtasks with the following JSON structure:") text
       /\ occursIn ("5. Have appropriate dependency chains between subtasks (use numerical IDs starting from "
                    +:+ pretty nextId +:+ ")") text
       /\ occursIn (dq +:+ "id" +:+ dq +:+ ": " +:+ pretty nextId +:+ ",") text
       /\ occursIn (dq +:+ "title" +:+ dq +:+ ": ") text
       /\ occursIn (dq +:+ "description" +:+ dq +:+ ": ") text
       /\ occursIn (dq +:+ "dependencies" +:+ dq +:+ ": [],") text
       /\ occursIn (dq +:+ "details" +:+ dq +:+ ": ") text
       /\ occursIn ("Break down this task into " +:+ pretty count
                    +:+ " subtasks:" +:+ nl
                    +:+ "Task ID: " +:+ pretty (Task.id t) +:+ nl
                    +:+ "Title: " +:+ Task.title t +:+ nl
                    +:+ "Description: " +:+ Task.description t +:+ nl
                    +:+ "Details: ") text
       /\ (context <> EmptyString ->
           occursIn ("Additional context: " +:+ context) text)
       /\ (forall other, samePromptFields t other ->
             fullPrompt other count context = text).
Proof.
  intros Hr Ht Hforce. cbv zeta.
  split; [exact (calls_reached svc _ _ _ _ _ _ Hr Ht Hforce)|].
  split; [now intros ->|].
  split; [intros n Hp Hn _; now apply subtaskCount_supplied|].
  intros t count context. apply prompt_text.
Qed.

Lemma prompt_contract_witness :
  let task := buildApi "pending" (Some [design]) in
  let args := expandArgs (Str "3") (Some true) in
  calls (expandTaskDirect helpful (store task) args)
  = [(fullPrompt (withSubtasks [] task) 3 EmptyString, false)]
  /\ occursIn ("Return exactly " +:+ pretty 3
               +:+ " subtasks with the following JSON structure:")
       (fullPrompt (withSubtasks [] task) 3 EmptyString).
Proof.
  cbv zeta.
  destruct (prompt_contract helpful
              (store (buildApi "pending" (Some [design])))
              (expandArgs (Str "3") (Some true)) tasksJson 3
              [buildApi "pending" (Some [design])]
              (buildApi "pending" (Some [design])))
    as (Hcalls & _ & _ & Htext).
  - split; [reflexivity | reflexivity | discriminate | reflexivity
           | reflexivity].
  - intros [H|H]; discriminate H.
  - reflexivity.
  - split; [exact Hcalls|].
    exact (proj1 (Htext (withSubtasks [] (buildApi "pending" (Some [design])))
                    3 EmptyString)).
Defined.

Lemma subtaskCount_default num :
  parseInt num = NaN \/ parseInt num = Int 0 ->
  subtaskCountOf (numSubtasksOf num) = 5.
Proof.
  unfold numSubtasksOf. destruct (truthy_val num); [|reflexivity].
  now intros [-> | ->].
Qed.

Lemma processRequest_count svc fs2 tasksPath backupPath taskId tasks2 task2
    originalTask n1 n2 useResearch additionalContext :
  subtaskCountOf n1 = subtaskCountOf n2 ->
  processRequest svc fs2 tasksPath backupPath taskId tasks2 task2
    originalTask n1 useResearch additionalContext
  = processRequest svc fs2 tasksPath backupPath taskId tasks2 task2
      originalTask n2 useResearch additionalContext.
Proof. unfold processRequest. intros ->. reflexivity. Qed.

(** C10: when [num] parses to NaN or to 0, the count is 5 and the call
    does what it does without [num]: it fails with INPUT_VALIDATION_ERROR
    only for want of a task id, and when it gets as far as the provider,
    the one prompt it sends asks for exactly 5 subtasks. *)
Theorem falsy_num_defaults_to_five svc fs args :
  parseInt (num args) = NaN \/ parseInt (num args) = Int 0 ->
  let r := expandTaskDirect svc fs args in
  subtaskCountOf (numSubtasksOf (num args)) = 5
  /\ r = expandTaskDirect svc fs (withNum Undefined args)
  /\ (forall message,
        result r = failure "INPUT_VALIDATION_ERROR" message ->
        match taskIdOf (id args) with
        | Some (Int taskId) => taskId = 0
        | _ => True
        end)
  /\ (forall tasksPath taskId tasks0 task,
        Reaches fs args tasksPath taskId tasks0 task ->
        ~ terminal task ->
        (hasSubtasks task = true -> force args = Some true) ->
        let text :=
          fullPrompt (withSubtasks [] task) 5
            (default EmptyString (prompt args)) in
        calls r = [(text, bool_decide (research args = Some true))]
        /\ occursIn ("Return exactly " +:+ pretty 5
                     +:+ " subtasks with the following JSON structure:") text
        /\ occursIn ("Break down this task into " +:+ pretty 5
                     +:+ " subtasks:") text
        /\ forall message,
             result r <> failure "INPUT_VALIDATION_ERROR" message).
Proof.
  intros Hnum. cbv zeta. pose proof (subtaskCount_default _ Hnum) as Hfive.
  assert (Hinvalid : forall message,
    result (expandTaskDirect svc fs args)
    = failure "INPUT_VALIDATION_ERROR" message ->
    match taskIdOf (id args) with
    | Some (Int taskId) => taskId = 0
    | _ => True
    end).
  { intros message. unfold expandTaskDirect. cbv zeta.
    destruct (tasksJsonPath args) as [tasksPath|]; [|discriminate].
    destruct (taskIdOf (id args)) as [[|taskId]|]; try (intros _; exact I).
    destruct (taskId =? 0) eqn:Hz; [intros _; now apply Z.eqb_eq|].
    destruct (readJSON fs tasksPath ≫= tasks) as [tasks0|]; [|discriminate].
    destruct (findTask taskId tasks0) as [task|]; [|discriminate].
    destruct (_ || _); [discriminate|].
    destruct (hasSubtasks task && negb _); [discriminate|].
    destruct (copyFileSync fs tasksPath _) as [fs1|e]; [|discriminate].
    unfold processRequest. cbv zeta.
    destruct (callAIProvider svc _ _) as [text|e]; [|discriminate].
    destruct (parseSubtasksFromText svc _ _ _ _) as [[[|s l]|]|e];
      try discriminate.
    destruct (unlinkSync _ _); discriminate. }
  split; [exact Hfive|]. split; [|split; [exact Hinvalid|]].
  - unfold expandTaskDirect. cbn [tasksJsonPath id num research prompt force withNum].
    cbv zeta.
    destruct (tasksJsonPath args) as [tasksPath|]; [|reflexivity].
    destruct (taskIdOf (id args)) as [[|taskId]|]; try reflexivity.
    destruct (taskId =? 0); [reflexivity|].
    destruct (readJSON fs tasksPath ≫= tasks) as [tasks0|]; [|reflexivity].
    destruct (findTask taskId tasks0) as [task|]; [|reflexivity].
    destruct (_ || _); [reflexivity|].
    destruct (hasSubtasks task && negb _); [reflexivity|].
    destruct (copyFileSync fs tasksPath _) as [fs1|e]; [|reflexivity].
    apply processRequest_count. now rewrite Hfive.
  - intros tasksPath taskId tasks0 task Hr Ht Hforce.
    split; [|split; [|split]].
    + rewrite <- Hfive. exact (calls_reached svc _ _ _ _ _ _ Hr Ht Hforce).
    + apply prompt_text.
    + unfold fullPrompt, userPrompt. do 3 apply occurs_later.
      apply occurs_start. starts.
    + intros message Hm. apply Hinvalid in Hm.
      rewrite (reaches_id _ _ _ _ _ _ Hr) in Hm.
      exact (reaches_id_nonzero _ _ _ _ _ _ Hr Hm).
Qed.

Lemma falsy_num_defaults_to_five_witness :
  let task := buildApi "pending" None in
  let args := expandArgs (Str "many") None in
  let r := expandTaskDirect garbled (store task) args in
  subtaskCountOf (numSubtasksOf (num args)) = 5
  /\ r = expandTaskDirect garbled (store task) (withNum Undefined args)
  /\ calls r = [(fullPrompt (withSubtasks [] task) 5 EmptyString, false)].
Proof.
  cbv zeta.
  destruct (falsy_num_defaults_to_five garbled
              (store (buildApi "pending" None))
              (expandArgs (Str "many") None))
    as (Hfive & Hsame & _ & Hsent).
  - left. reflexivity.
  - split; [exact Hfive|]. split; [exact Hsame|].
    apply (Hsent tasksJson 3 [buildApi "pending" None]
             (buildApi "pending" None)).
    + split; [reflexivity | reflexivity | discriminate | reflexivity
             | reflexivity].
    + intros [H|H]; discriminate H.
    + discriminate.
Defined.

End ExpandTaskFacts.

(** ** More on task expansion *)

Module ExpandTaskExtra.
Import ExpandTask ExpandTaskMore ExpandTaskFacts.


Lemma setSubtasks_twice taskId s1 s2 ts :
  setSubtasks taskId s2 (setSubtasks taskId s1 ts) = setSubtasks taskId s2 ts.
Proof.
  induction ts as [|u ts IH]; [reflexivity|]. cbn [setSubtasks].
  destruct (Task.id u =? taskId) eqn:E; cbn [setSubtasks].
  - cbn [withSubtasks Task.id]. rewrite E. reflexivity.
  - rewrite E, IH. reflexivity.
Qed.

Lemma setSubtasks_ids taskId subs ts :
  map Task.id (setSubtasks taskId subs ts) = map Task.id ts.
Proof.
  induction ts as [|u ts IH]; [reflexivity|]. cbn [setSubtasks].
  destruct (Task.id u =? taskId); cbn [map]; [reflexivity|]. now rewrite IH.
Qed.

Lemma findTask_setSubtasks taskId subs ts t :
  findTask taskId ts = Some t ->
  findTask taskId (setSubtasks taskId subs ts) = Some (withSubtasks subs t).
Proof.
  unfold findTask. induction ts as [|u ts IH]; [discriminate|].
  cbn [setSubtasks find]. destruct (Task.id u =? taskId) eqn:E.
  - intros [= ->]. cbn [find withSubtasks Task.id]. now rewrite E.
  - intros H. cbn [find]. rewrite E. auto.
Qed.

Lemma findTask_setSubtasks_other taskId other subs ts :
  other <> taskId ->
  findTask other (setSubtasks taskId subs ts) = findTask other ts.
Proof.
  intros Hne. unfold findTask. induction ts as [|u ts IH]; [reflexivity|].
  cbn [setSubtasks find]. destruct (Task.id u =? taskId) eqn:E.
  - cbn [find withSubtasks Task.id]. apply Z.eqb_eq in E.
    destruct (Task.id u =? other) eqn:E'; [|reflexivity].
    apply Z.eqb_eq in E'. congruence.
  - cbn [find]. now rewrite IH.
Qed.

(** What a call that expands does, in one equation. *)
Lemma expand_expands svc fs args tasksPath taskId tasks0 task newSubtasks :
  Expands svc fs args tasksPath taskId tasks0 task newSubtasks ->
  expandTaskDirect svc fs args =
  let backupPath := join (dirname tasksPath) "tasks.json.bak" in
  let subtasksAdded := Z.of_nat (length newSubtasks) in
  {| result :=
       success
         [("message", VStr ("Task " +:+ pretty taskId
                            +:+ " expanded successfully with "
                            +:+ pretty subtasksAdded +:+ " subtasks."));
          ("task", VTask (if hasSubtasks task then withSubtasks [] task
                          else task));
          ("newSubtasks", VSubtasks newSubtasks);
          ("subtasksAdded", VNum subtasksAdded);
          ("totalSubtasks", VNum subtasksAdded)];
     files :=
       <[tasksPath :=
           JsonFile {| tasks := Some (setSubtasks taskId newSubtasks tasks0) |}]>
         (delete backupPath fs);
     calls :=
       [(fullPrompt (withSubtasks [] task)
           (subtaskCountOf (numSubtasksOf (num args)))
           (default EmptyString (prompt args)),
         bool_decide (research args = Some true))] |}.
Proof.
  intros [Hr Ht Hf (text & Hcall & Hparse) Hne Hb].
  rewrite (expand_reaches _ _ _ _ _ _ _ Hr). cbv zeta.
  destruct (_ || _) eqn:Hd; [apply terminal_test in Hd; contradiction|].
  assert (Hforce : hasSubtasks task = true ->
                   bool_decide (force args = Some true) = true).
  { intros H. apply bool_decide_eq_true_2. auto. }
  destruct (hasSubtasks task) eqn:Hs; [rewrite (Hforce eq_refl)|];
    cbn [andb negb]; unfold processRequest; cbv zeta;
    rewrite Hcall;
    change (nextSubtaskIdOf (withSubtasks [] task)) with 1;
    change (Task.id (withSubtasks [] task)) with (Task.id task);
    rewrite (findTask_id _ _ _ (reaches_task _ _ _ _ _ _ Hr)), Hparse;
    (destruct newSubtasks as [|s l]; [congruence|]);
    unfold unlinkSync, writeJSON;
    rewrite lookup_insert_ne, lookup_insert_ne, lookup_insert_eq by congruence;
    rewrite insert_insert_eq, setSubtasks_twice;
    rewrite delete_insert_ne, delete_insert_eq by congruence;
    reflexivity.
Qed.

Ltac sample_expands :=
  split;
  [ split; [reflexivity | reflexivity | discriminate | reflexivity
           | reflexivity]
  | intros [H|H]; discriminate H
  | try reflexivity; try discriminate
  | eexists; split; reflexivity
  | discriminate
  | discriminate ].

(** X1: a forced or first expansion that succeeds leaves the store file
    with exactly the new subtasks under the target task, removes the
    backup file, reports as many subtasks in total as it added, and has
    made one request to the provider. *)
Theorem expansion_replaces_subtasks svc fs args tasksPath taskId tasks0 task
    newSubtasks :
  Expands svc fs args tasksPath taskId tasks0 task newSubtasks ->
  let r := expandTaskDirect svc fs args in
  let backupPath := join (dirname tasksPath) "tasks.json.bak" in
  get "success" (result r) = Some (VBool true)
  /\ (exists data,
        get "data" (result r) = Some (VObj data)
        /\ get "newSubtasks" data = Some (VSubtasks newSubtasks)
        /\ get "subtasksAdded" data = Some (VNum (Z.of_nat (length newSubtasks)))
        /\ get "totalSubtasks" data = Some (VNum (Z.of_nat (length newSubtasks))))
  /\ readJSON (files r) tasksPath
     = Some {| tasks := Some (setSubtasks taskId newSubtasks tasks0) |}
  /\ findTask taskId (setSubtasks taskId newSubtasks tasks0)
     = Some (withSubtasks newSubtasks task)
  /\ files r !! backupPath = None
  /\ length (calls r) = 1%nat.
Proof.
  intros He. cbv zeta. rewrite (expand_expands _ _ _ _ _ _ _ _ He).
  cbv zeta. cbn [result files calls].
  destruct He as [Hr _ _ _ _ Hb].
  split; [reflexivity|]. split; [eexists; repeat split|].
  split; [unfold readJSON; now rewrite lookup_insert_eq|].
  split; [apply findTask_setSubtasks, Hr|].
  split; [|reflexivity].
  rewrite lookup_insert_ne by congruence. apply lookup_delete_eq.
Qed.

Lemma expansion_replaces_subtasks_witness :
  let task := buildApi "pending" (Some [design]) in
  let new := [subtaskNo 1; subtaskNo 2; subtaskNo 3] in
  let r := expandTaskDirect helpful (store task)
             (expandArgs Undefined (Some true)) in
  let backupPath := join (dirname tasksJson) "tasks.json.bak" in
  get "success" (result r) = Some (VBool true)
  /\ (exists data,
        get "data" (result r) = Some (VObj data)
        /\ get "newSubtasks" data = Some (VSubtasks new)
        /\ get "subtasksAdded" data = Some (VNum (Z.of_nat (length new)))
        /\ get "totalSubtasks" data = Some (VNum (Z.of_nat (length new))))
  /\ readJSON (files r) tasksJson
     = Some {| tasks := Some (setSubtasks 3 new [task]) |}
  /\ findTask 3 (setSubtasks 3 new [task]) = Some (withSubtasks new task)
  /\ files r !! backupPath = None
  /\ length (calls r) = 1%nat.
Proof.
  apply (expansion_replaces_subtasks helpful
           (store (buildApi "pending" (Some [design])))
           (expandArgs Undefined (Some true)) tasksJson 3
           [buildApi "pending" (Some [design])]
           (buildApi "pending" (Some [design]))
           [subtaskNo 1; subtaskNo 2; subtaskNo 3]).
  sample_expands.
Defined.

(** X2: a successful expansion keeps the ids and the order of the tasks
    in the store file, and every task found under another id is as it
    was. *)
Theorem expansion_keeps_other_tasks svc fs args tasksPath taskId tasks0 task
    newSubtasks :
  Expands svc fs args tasksPath taskId tasks0 task newSubtasks ->
  exists tasks1,
    readJSON (files (expandTaskDirect svc fs args)) tasksPath
    = Some {| tasks := Some tasks1 |}
    /\ map Task.id tasks1 = map Task.id tasks0
    /\ forall other, other <> taskId ->
         findTask other tasks1 = findTask other tasks0.
Proof.
  intros He. rewrite (expand_expands _ _ _ _ _ _ _ _ He).
  cbv zeta. cbn [files]. eexists. split.
  - unfold readJSON. now rewrite lookup_insert_eq.
  - split; [apply setSubtasks_ids|].
    intros other Hne. now apply findTask_setSubtasks_other.
Qed.

Lemma expansion_keeps_other_tasks_witness :
  let tasks0 := [writeDocs; buildApi "pending" None] in
  findTask 4 tasks0 = Some writeDocs
  /\ exists tasks1,
       readJSON (files (expandTaskDirect helpful (project tasks0)
                          (expandArgs Undefined None))) tasksJson
       = Some {| tasks := Some tasks1 |}
       /\ map Task.id tasks1 = map Task.id tasks0
       /\ forall other, other <> 3 ->
            findTask other tasks1 = findTask other tasks0.
Proof.
  split; [reflexivity|].
  apply (expansion_keeps_other_tasks helpful
           (project [writeDocs; buildApi "pending" None])
           (expandArgs Undefined None) tasksJson 3
           [writeDocs; buildApi "pending" None] (buildApi "pending" None)
           [subtaskNo 1; subtaskNo 2; subtaskNo 3]).
  sample_expands.
Defined.

(** X3: the task in the result of a successful expansion is the task as it
    was before generation: it never carries the new subtasks, and under
    force the subtasks it had are gone from it too. *)
Theorem returned_task_is_snapshot svc fs args tasksPath taskId tasks0 task
    newSubtasks :
  Expands svc fs args tasksPath taskId tasks0 task newSubtasks ->
  exists data returned,
    get "data" (result (expandTaskDirect svc fs args)) = Some (VObj data)
    /\ get "task" data = Some (VTask returned)
    /\ returned = (if hasSubtasks task then withSubtasks [] task else task)
    /\ Task.subtasks returned <> Some newSubtasks
    /\ (Task.subtasks returned = None \/ Task.subtasks returned = Some []).
Proof.
  intros He. rewrite (expand_expands _ _ _ _ _ _ _ _ He).
  cbv zeta. cbn [result]. eexists _, _.
  split; [reflexivity|]. split; [reflexivity|]. split; [reflexivity|].
  destruct He as [_ _ _ _ Hne _].
  unfold hasSubtasks. destruct (Task.subtasks task) as [[|s l]|] eqn:Hs;
    cbn [withSubtasks Task.subtasks]; rewrite ?Hs;
    split; try (intros [= <-]; congruence); auto; discriminate.
Qed.

Lemma returned_task_is_snapshot_witness :
  let task := buildApi "pending" (Some [design]) in
  exists data returned,
    get "data" (result (expandTaskDirect helpful (store task)
                          (expandArgs Undefined (Some true))))
    = Some (VObj data)
    /\ get "task" data = Some (VTask returned)
    /\ returned = (if hasSubtasks task then withSubtasks [] task else task)
    /\ Task.subtasks returned
       <> Some [subtaskNo 1; subtaskNo 2; subtaskNo 3]
    /\ (Task.subtasks returned = None \/ Task.subtasks returned = Some []).
Proof.
  apply (returned_task_is_snapshot helpful
           (store (buildApi "pending" (Some [design])))
           (expandArgs Undefined (Some true)) tasksJson 3
           [buildApi "pending" (Some [design])]
           (buildApi "pending" (Some [design]))
           [subtaskNo 1; subtaskNo 2; subtaskNo 3]).
  sample_expands.
Defined.

(** X4: after a successful expansion, a further call without force, to
    any provider, is the skip: success with subtasksAdded = 0, no request
    and no change to the files. *)
Theorem expand_again_skips svc svc' fs args tasksPath taskId tasks0 task
    newSubtasks :
  Expands svc fs args tasksPath taskId tasks0 task newSubtasks ->
  let r := expandTaskDirect svc fs args in
  let again := expandTaskDirect svc' (files r) (withForce None args) in
  get "success" (result again) = Some (VBool true)
  /\ (exists data, get "data" (result again) = Some (VObj data)
                   /\ get "subtasksAdded" data = Some (VNum 0)
                   /\ get "task" data
                      = Some (VTask (withSubtasks newSubtasks task)))
  /\ files again = files r /\ calls again = [].
Proof.
  intros He. cbv zeta. rewrite (expand_expands _ _ _ _ _ _ _ _ He).
  cbv zeta. cbn [files].
  destruct He as [[Hp Hi Hz Hfile Hfind] Ht _ _ Hne _].
  set (fs1 := <[tasksPath := _]> _).
  assert (Hr : Reaches fs1 (withForce None args) tasksPath taskId
                 (setSubtasks taskId newSubtasks tasks0)
                 (withSubtasks newSubtasks task)).
  { split; try assumption.
    - unfold fs1. apply lookup_insert_eq.
    - now apply findTask_setSubtasks. }
  rewrite (expand_reaches _ _ _ _ _ _ _ Hr). cbv zeta.
  change (Task.status (withSubtasks newSubtasks task)) with (Task.status task).
  destruct (_ || _) eqn:Hd; [apply terminal_test in Hd; contradiction|].
  assert (Hs : hasSubtasks (withSubtasks newSubtasks task) = true).
  { unfold hasSubtasks. cbn [withSubtasks Task.subtasks].
    destruct newSubtasks; [congruence|reflexivity]. }
  rewrite Hs. cbn [withForce force].
  rewrite (bool_decide_eq_false_2 _) by discriminate.
  cbn [andb negb result files calls]. repeat split.
  eexists. repeat split.
Qed.

Lemma expand_again_skips_witness :
  let task := buildApi "pending" None in
  let args := expandArgs Undefined None in
  let r := expandTaskDirect helpful (store task) args in
  let again := expandTaskDirect garbled (files r) (withForce None args) in
  get "success" (result again) = Some (VBool true)
  /\ (exists data, get "data" (result again) = Some (VObj data)
                   /\ get "subtasksAdded" data = Some (VNum 0)
                   /\ get "task" data
                      = Some (VTask (withSubtasks
                                       [subtaskNo 1; subtaskNo 2; subtaskNo 3]
                                       task)))
  /\ files again = files r /\ calls again = [].
Proof.
  apply (expand_again_skips helpful garbled
           (store (buildApi "pending" None)) (expandArgs Undefined None)
           tasksJson 3 [buildApi "pending" None] (buildApi "pending" None)
           [subtaskNo 1; subtaskNo 2; subtaskNo 3]).
  sample_expands.
Defined.


(** X5: a call refused with any code other than CORE_FUNCTION_ERROR has
    changed no file and made no request. *)
Theorem refusals_touch_nothing svc fs args code message :
  result (expandTaskDirect svc fs args) = failure code message ->
  code <> "CORE_FUNCTION_ERROR" ->
  files (expandTaskDirect svc fs args) = fs
  /\ calls (expandTaskDirect svc fs args) = [].
Proof.
  unfold expandTaskDirect. cbv zeta.
  destruct (tasksJsonPath args) as [tasksPath|]; [|now split].
  destruct (taskIdOf (id args)) as [[|taskId]|]; try now split.
  destruct (taskId =? 0); [now split|].
  destruct (readJSON fs tasksPath ≫= tasks) as [tasks0|]; [|now split].
  destruct (findTask taskId tasks0) as [task|]; [|now split].
  destruct (_ || _); [now split|].
  destruct (hasSubtasks task && negb _); [now split|].
  destruct (copyFileSync fs tasksPath _) as [fs1|e]; [|now split].
  unfold processRequest. cbv zeta.
  destruct (callAIProvider svc _ _) as [text|e];
    [|intros [= <- _] Hc; now destruct Hc].
  destruct (parseSubtasksFromText svc _ _ _ _) as [[[|s l]|]|e];
    try (intros [= <- _] Hc; now destruct Hc).
  destruct (unlinkSync _ _); [discriminate|].
  intros [= <- _] Hc; now destruct Hc.
Qed.

Lemma refusals_touch_nothing_witness :
  let r := expandTaskDirect helpful (store (buildApi "pending" None))
             (withId (Str "seven") (expandArgs Undefined None)) in
  files r = store (buildApi "pending" None) /\ calls r = [].
Proof.
  apply (refusals_touch_nothing helpful (store (buildApi "pending" None))
           (withId (Str "seven") (expandArgs Undefined None))
           "INPUT_VALIDATION_ERROR" "Task ID is required").
  - reflexivity.
  - discriminate.
Defined.

(** X6: whatever a call does, every file other than the tasks file and
    the tasks.json.bak beside it is left as it was. *)
Theorem only_store_and_backup_change svc fs args tasksPath q :
  tasksJsonPath args = Some tasksPath ->
  q <> tasksPath ->
  q <> join (dirname tasksPath) "tasks.json.bak" ->
  files (expandTaskDirect svc fs args) !! q = fs !! q.
Proof.
  intros Hp Hq Hb. unfold expandTaskDirect. cbv zeta. rewrite Hp.
  destruct (taskIdOf (id args)) as [[|taskId]|]; try reflexivity.
  destruct (taskId =? 0); [reflexivity|].
  destruct (readJSON fs tasksPath ≫= tasks) as [tasks0|]; [|reflexivity].
  destruct (findTask taskId tasks0) as [task|]; [|reflexivity].
  destruct (_ || _); [reflexivity|].
  destruct (hasSubtasks task && negb _); [reflexivity|].
  unfold copyFileSync.
  destruct (fs !! tasksPath) as [content|]; [|reflexivity].
  unfold processRequest, writeJSON, unlinkSync. cbv zeta.
  assert (H2 : forall d, (<[tasksPath := d]>
              (<[join (dirname tasksPath) "tasks.json.bak" := content]> fs))
              !! q = fs !! q).
  { intros d. now rewrite !lookup_insert_ne by congruence. }
  destruct (callAIProvider svc _ _) as [text|e]; [|apply H2].
  destruct (parseSubtasksFromText svc _ _ _ _) as [[[|s l]|]|e];
    try apply H2.
  match goal with |- context [match ?m !! ?k with _ => _ end] =>
    destruct (m !! k) end; cbn [files].
  - rewrite lookup_delete_ne by congruence.
    rewrite lookup_insert_ne by congruence. apply H2.
  - rewrite lookup_insert_ne by congruence. apply H2.
Qed.

Lemma only_store_and_backup_change_witness :
  let fs := project [writeDocs; buildApi "pending" None] in
  fs !! readme = Some (OtherFile "# Build API")
  /\ files (expandTaskDirect helpful fs (expandArgs Undefined None)) !! readme
     = fs !! readme.
Proof.
  split; [reflexivity|].
  apply (only_store_and_backup_change helpful
           (project [writeDocs; buildApi "pending" None])
           (expandArgs Undefined None) tasksJson readme).
  - reflexivity.
  - discriminate.
  - discriminate.
Defined.

Lemma prepared_task_empty task forceFlag :
  hasSubtasks task && negb forceFlag = false ->
  let clear := hasSubtasks task && forceFlag in
  let task1 := if clear then withSubtasks [] task else task in
  let task2 := if bool_decide (Task.subtasks task1 = None)
               then withSubtasks [] task1 else task1 in
  Task.subtasks task2 = Some [].
Proof.
  unfold hasSubtasks. cbv zeta.
  destruct (Task.subtasks task) as [[|s l]|] eqn:Hs; cbn [andb negb].
  - intros _. rewrite Hs. rewrite (bool_decide_eq_false_2 _) by discriminate.
    exact Hs.
  - destruct forceFlag; [intros _|discriminate]. reflexivity.
  - intros _. rewrite Hs. rewrite (bool_decide_eq_true_2 _) by reflexivity.
    reflexivity.
Qed.

Lemma processRequest_fromOne svc fs2 tasksPath backupPath taskId tasks2 task2
    originalTask numSubtasks useResearch additionalContext :
  Task.subtasks task2 = Some [] ->
  processRequest svc fs2 tasksPath backupPath taskId tasks2 task2
    originalTask numSubtasks useResearch additionalContext
  = processRequest (fromOne svc) fs2 tasksPath backupPath taskId tasks2 task2
      originalTask numSubtasks useResearch additionalContext.
Proof.
  intros Hs. unfold processRequest, fromOne, nextSubtaskIdOf.
  cbn [callAIProvider parseSubtasksFromText]. rewrite Hs. reflexivity.
Qed.

(** X7: the parser is only ever asked to number the subtasks from 1: a
    call behaves the same when the parser ignores the start id it is
    given and uses 1, whatever subtasks the task had. *)
Theorem parser_numbers_from_one svc fs args :
  expandTaskDirect svc fs args = expandTaskDirect (fromOne svc) fs args.
Proof.
  unfold expandTaskDirect. cbv zeta.
  destruct (tasksJsonPath args) as [tasksPath|]; [|reflexivity].
  destruct (taskIdOf (id args)) as [[|taskId]|]; try reflexivity.
  destruct (taskId =? 0); [reflexivity|].
  destruct (readJSON fs tasksPath ≫= tasks) as [tasks0|]; [|reflexivity].
  destruct (findTask taskId tasks0) as [task|]; [|reflexivity].
  destruct (_ || _); [reflexivity|].
  destruct (hasSubtasks task && negb _) eqn:Hskip; [reflexivity|].
  destruct (copyFileSync fs tasksPath _) as [fs1|e]; [|reflexivity].
  apply processRequest_fromOne. exact (prepared_task_empty _ _ Hskip).
Qed.

(** X8: force matters only for a task that has subtasks: when the task a
    call reaches has none, the call does the same for every value of
    force. *)
Theorem force_without_subtasks svc fs args tasksPath taskId tasks0 task f1 f2 :
  Reaches fs args tasksPath taskId tasks0 task ->
  hasSubtasks task = false ->
  expandTaskDirect svc fs (withForce f1 args)
  = expandTaskDirect svc fs (withForce f2 args).
Proof.
  intros [Hp Hi Hz Hf Ht] Hs.
  assert (Hr : forall f, Reaches fs (withForce f args) tasksPath taskId
                           tasks0 task) by (intros f; now split).
  rewrite (expand_reaches _ _ _ _ _ _ _ (Hr f1)),
    (expand_reaches _ _ _ _ _ _ _ (Hr f2)).
  cbv zeta. rewrite Hs. reflexivity.
Qed.

Lemma force_without_subtasks_witness :
  expandTaskDirect helpful (store (buildApi "pending" (Some [])))
    (withForce (Some true) (expandArgs Undefined None))
  = expandTaskDirect helpful (store (buildApi "pending" (Some [])))
      (withForce None (expandArgs Undefined None)).
Proof.
  apply (force_without_subtasks helpful
           (store (buildApi "pending" (Some []))) (expandArgs Undefined None)
           tasksJson 3 [buildApi "pending" (Some [])]
           (buildApi "pending" (Some [])) (Some true) None).
  - split; [reflexivity | reflexivity | discriminate | reflexivity
           | reflexivity].
  - reflexivity.
Defined.


Lemma digit_char d : (d < 10)%N -> digit (pretty_N_char d) = Some (Z.of_N d).
Proof.
  intros H.
  assert (d = 0 \/ d = 1 \/ d = 2 \/ d = 3 \/ d = 4 \/ d = 5 \/ d = 6
          \/ d = 7 \/ d = 8 \/ d = 9)%N as Hd by lia.
  repeat (destruct Hd as [->|Hd]; [reflexivity|]). now subst.
Qed.

Lemma digits_step acc c s d :
  digit c = Some d ->
  digits acc (String c s) = digits (Some (10 * default 0 acc + d)) s.
Proof. intros H. cbn [digits]. now rewrite H. Qed.

(** Reading the digits that [pretty_N_go] writes in front of [s]. *)
Lemma digits_pretty_go x :
  (0 < x)%N ->
  exists k, forall s acc,
    digits acc (pretty_N_go x s)
    = digits (Some (k * default 0 acc + Z.of_N x)) s.
Proof.
  induction (N.lt_wf_0 x) as [x _ IH]. intros Hx.
  assert (Hd : digit (pretty_N_char (x `mod` 10)) = Some (Z.of_N (x `mod` 10)))
    by (apply digit_char, N.mod_lt; lia).
  destruct (decide (x `div` 10 = 0)%N) as [Hz|Hz].
  - exists 10. intros s acc. rewrite pretty_N_go_step, Hz, pretty_N_go_0 by done.
    rewrite (digits_step _ _ _ _ Hd). do 2 f_equal.
    pose proof (N.div_mod x 10 ltac:(lia)) as Hdm. rewrite Hz in Hdm. lia.
  - destruct (IH (x `div` 10)%N) as [k Hk]; [apply N.div_lt; lia|now apply N.neq_0_lt_0|].
    exists (10 * k). intros s acc.
    rewrite pretty_N_go_step, Hk by done.
    rewrite (digits_step _ _ _ _ Hd). cbn [default]. do 2 f_equal.
    pose proof (N.div_mod x 10 ltac:(lia)) as Hdm.
    generalize dependent (x `div` 10)%N. generalize dependent (x `mod` 10)%N.
    intros. cbv beta delta [Datatypes.id]. lia.
Qed.

Lemma pretty_go_head x s :
  (0 < x)%N -> exists c rest, pretty_N_go x s = String c rest
                              /\ is_Some (digit c).
Proof.
  revert s. induction (N.lt_wf_0 x) as [x _ IH]. intros s Hx.
  rewrite pretty_N_go_step by done.
  destruct (decide (x `div` 10 = 0)%N) as [Hz|Hz].
  - rewrite Hz, pretty_N_go_0. eexists _, _. split; [reflexivity|].
    rewrite digit_char by (apply N.mod_lt; lia). eauto.
  - apply IH; [apply N.div_lt; lia|now apply N.neq_0_lt_0].
Qed.

Lemma pretty_go_app x s rest :
  pretty_N_go x s +:+ rest = pretty_N_go x (s +:+ rest).
Proof.
  revert s. induction (N.lt_wf_0 x) as [x _ IH]. intros s.
  destruct (decide (x = 0)%N) as [->|Hx]; [now rewrite !pretty_N_go_0|].
  rewrite (pretty_N_go_step x s), (pretty_N_go_step x (s +:+ rest)) by lia.
  rewrite IH by (apply N.div_lt; lia). reflexivity.
Qed.

Lemma digits_stop acc rest :
  startsWithDigit rest = false -> digits acc rest = acc.
Proof.
  destruct rest as [|c rest]; [reflexivity|]. cbn [startsWithDigit digits].
  destruct (digit c); [|reflexivity].
  intros H. apply bool_decide_eq_false in H. destruct H. eauto.
Qed.

Lemma skip_whitespace_app ws s :
  allWhitespace ws = true ->
  skip_whitespace (ws +:+ s) = skip_whitespace s.
Proof.
  induction ws as [|c ws IH]; [reflexivity|]. cbn [allWhitespace].
  intros [Hc Hws]%andb_true_iff.
  change (String c ws +:+ s) with (String c (ws +:+ s)).
  cbn [skip_whitespace]. rewrite Hc. auto.
Qed.

Lemma is_whitespace3_ascii c d e :
  (N_of_ascii c < 128)%N -> is_whitespace3 c d e = false.
Proof.
  intros H. unfold is_whitespace3. cbv zeta.
  rewrite (proj2 (N.eqb_neq (N_of_ascii c) 225)) by lia.
  rewrite (proj2 (N.eqb_neq (N_of_ascii c) 226)) by lia.
  rewrite (proj2 (N.eqb_neq (N_of_ascii c) 227)) by lia.
  rewrite (proj2 (N.eqb_neq (N_of_ascii c) 239)) by lia.
  reflexivity.
Qed.

(** A character of ASCII that is no white space stops the skipping. *)
Lemma skip_whitespace_ascii c rest :
  (N_of_ascii c < 128)%N -> is_whitespace c = false ->
  skip_whitespace (String c rest) = String c rest.
Proof.
  intros Hc Hw. cbn [skip_whitespace]. rewrite Hw.
  destruct rest as [|d [|e s3]]; try reflexivity;
    unfold is_whitespace2;
    rewrite (proj2 (N.eqb_neq (N_of_ascii c) 194)) by lia; cbn [andb];
    rewrite ?is_whitespace3_ascii by assumption; reflexivity.
Qed.

Lemma digit_ascii c :
  is_Some (digit c) -> (N_of_ascii c < 128)%N /\ is_whitespace c = false.
Proof.
  intros [d Hd]. revert Hd.
  destruct c as [[] [] [] [] [] [] [] []]; try discriminate;
    intros _; split; reflexivity.
Qed.

Lemma parseInt_digit_head c rest :
  is_Some (digit c) ->
  parseInt (Str (String c rest)) = number_of 1 (digits None (String c rest)).
Proof.
  intros Hd. destruct (digit_ascii c Hd) as [Hc Hw]. unfold parseInt.
  rewrite (skip_whitespace_ascii c rest Hc Hw).
  destruct Hd as [d Hd]. revert Hd.
  destruct c as [[] [] [] [] [] [] [] []]; try discriminate; reflexivity.
Qed.

Lemma parseInt_decimal n rest :
  startsWithDigit rest = false ->
  parseInt (Str (pretty n +:+ rest)) = Int n.
Proof.
  intros Hrest. destruct n as [|p|p].
  - change (pretty 0 +:+ rest) with (String "0" rest).
    rewrite parseInt_digit_head by (cbn; eauto).
    rewrite (digits_step _ _ _ 0) by reflexivity.
    now rewrite digits_stop.
  - change (pretty (Z.pos p)) with (pretty_N_go (N.pos p) EmptyString).
    rewrite pretty_go_app. change (EmptyString +:+ rest) with rest.
    destruct (pretty_go_head (N.pos p) rest) as (c & tl & Heq & Hc); [lia|].
    rewrite Heq, parseInt_digit_head, <- Heq by done.
    destruct (digits_pretty_go (N.pos p)) as [k Hk]; [lia|].
    rewrite Hk, digits_stop by done. cbn [default number_of].
    f_equal. lia.
  - change (pretty (Z.neg p))
      with (String "-" (pretty_N_go (N.pos p) EmptyString)).
    change (String "-" (pretty_N_go (N.pos p) EmptyString) +:+ rest)
      with (String "-" (pretty_N_go (N.pos p) EmptyString +:+ rest)).
    rewrite pretty_go_app. change (EmptyString +:+ rest) with rest.
    unfold parseInt. rewrite skip_whitespace_ascii by reflexivity.
    destruct (digits_pretty_go (N.pos p)) as [k Hk]; [lia|].
    rewrite Hk, digits_stop by done. cbn [default number_of].
    f_equal. lia.
Qed.

(** X9: [parseInt] reads back the decimal form of every safe integer
    (at most 2^53 - 1 in absolute value), past leading white space and up
    to the first character that is no digit: the text after the number is
    ignored. *)
Theorem parseInt_reads_decimal n ws rest :
  isSafeInteger n ->
  allWhitespace ws = true ->
  startsWithDigit rest = false ->
  parseInt (Str (ws +:+ pretty n +:+ rest)) = Int n.
Proof.
  intros _ Hws Hrest. rewrite <- (parseInt_decimal n rest Hrest).
  unfold parseInt. now rewrite skip_whitespace_app.
Qed.

Lemma parseInt_reads_decimal_witness :
  parseInt (Str ("  " +:+ pretty (-42) +:+ " subtasks")) = Int (-42).
Proof.
  apply (parseInt_reads_decimal (-42) "  " " subtasks");
    [unfold isSafeInteger, MAX_SAFE_INTEGER; simpl; lia | reflexivity
    | reflexivity].
Defined.

(** X10: a task id given as the decimal text of a safe integer (at most
    2^53 - 1 in absolute value) and the id given as that number make the
    same call. *)
Theorem text_and_number_ids_agree svc fs args n :
  isSafeInteger n ->
  expandTaskDirect svc fs (withId (Str (pretty n)) args)
  = expandTaskDirect svc fs (withId (Num n) args).
Proof.
  intros _.
  assert (Hp : parseInt (Str (pretty n)) = Int n).
  { rewrite <- (parseInt_decimal n EmptyString eq_refl). f_equal. f_equal.
    induction (pretty n) as [|c s IH]; [reflexivity|].
    change (String c s = String c (s +:+ EmptyString)). now f_equal. }
  assert (Ht : truthy_val (Str (pretty n)) = true).
  { cbn [truthy_val]. destruct (String.eqb_spec (pretty n) EmptyString) as [E|];
      [|reflexivity].
    rewrite E in Hp. discriminate Hp. }
  unfold expandTaskDirect. cbn [withId tasksJsonPath id num research prompt force].
  unfold taskIdOf. rewrite Ht, Hp. cbn [truthy_val parseInt].
  destruct (tasksJsonPath args); [|reflexivity].
  destruct (n =? 0) eqn:Hz; cbn [negb]; rewrite ?Hz; reflexivity.
Qed.

Lemma text_and_number_ids_agree_witness :
  expandTaskDirect helpful (store (buildApi "pending" None))
    (withId (Str (pretty 3)) (expandArgs Undefined None))
  = expandTaskDirect helpful (store (buildApi "pending" None))
      (withId (Num 3) (expandArgs Undefined None)).
Proof.
  apply (text_and_number_ids_agree helpful (store (buildApi "pending" None))
           (expandArgs Undefined None) 3).
  unfold isSafeInteger, MAX_SAFE_INTEGER. simpl. lia.
Defined.


Lemma append_empty s : s +:+ EmptyString = s.
Proof.
  induction s as [|c s IH]; [reflexivity|].
  change (String c (s +:+ EmptyString) = String c s). now f_equal.
Qed.

Lemma ends_same s : endsWith s s.
Proof. now exists EmptyString. Qed.

Lemma ends_later a s text : endsWith s text -> endsWith s (a +:+ text).
Proof.
  intros [before ->]. exists (a +:+ before). now rewrite append_assoc.
Qed.

Ltac ends := first [ apply ends_same | apply ends_later; ends ].

(** X11: after the instructions the prompt gives the id, the title and
    the description of the task, in this order; empty details are written
    N/A; the additional context comes last, and only when there is
    some. *)
Theorem prompt_names_task task subtaskCount additionalContext :
  let text := fullPrompt task subtaskCount additionalContext in
  let details :=
    if String.eqb (Task.details task) EmptyString then "N/A"
    else Task.details task in
  occursIn ("Task ID: " +:+ pretty (Task.id task) +:+ nl
            +:+ "Title: " +:+ Task.title task +:+ nl
            +:+ "Description: " +:+ Task.description task +:+ nl
            +:+ "Details: " +:+ details) text
  /\ (additionalContext = EmptyString ->
      endsWith ("Details: " +:+ details) text)
  /\ (additionalContext <> EmptyString ->
      endsWith (nl +:+ nl +:+ "Additional context: " +:+ additionalContext)
        text).
Proof.
  cbv zeta. unfold fullPrompt, userPrompt, contextPrompt.
  split; [|split].
  - do 3 apply occurs_later. do 4 apply occurs_later.
    apply occurs_start. starts.
  - intros ->. cbn [String.eqb]. rewrite append_empty. ends.
  - intros H. apply String.eqb_neq in H. rewrite H. ends.
Qed.

Lemma prompt_names_task_witness :
  endsWith (nl +:+ nl +:+ "Additional context: " +:+ "use Express")
    (fullPrompt (buildApi "pending" None) 3 "use Express").
Proof.
  apply (prompt_names_task (buildApi "pending" None) 3 "use Express").
  discriminate.
Defined.

End ExpandTaskExtra.

(** ** More on provider resolution *)

Module AiClientUtilsExtra.
Import AiClientUtils AiClientUtilsMore AiClientUtilsFacts.


Section SameSettings.
Context (s1 s2 : option Session) (p1 p2 : Process).
Hypothesis same_env :
  forall key, key <> "AI_PROVIDER" -> env_or s1 p1 key = env_or s2 p2 key.
Hypothesis same_import : openai_import_error p1 = openai_import_error p2.

Ltac same := repeat (rewrite same_env by discriminate); rewrite ?same_import.

Lemma same_google : googleModel s1 p1 = googleModel s2 p2.
Proof. unfold googleModel, getGoogleClientForMCP. same. reflexivity. Qed.

Lemma same_claude name : claudeModel s1 p1 name = claudeModel s2 p2 name.
Proof. unfold claudeModel, getAnthropicClientForMCP. same. reflexivity. Qed.

Lemma same_perplexity_client :
  getPerplexityClientForMCP s1 p1 = getPerplexityClientForMCP s2 p2.
Proof. unfold getPerplexityClientForMCP. same. reflexivity. Qed.

Lemma same_default prim : defaultCase s1 p1 prim = defaultCase s2 p2 prim.
Proof. unfold defaultCase. rewrite same_google, !same_claude. same. reflexivity. Qed.

Lemma same_overloaded prim :
  overloadedCase s1 p1 prim = overloadedCase s2 p2 prim.
Proof.
  unfold overloadedCase, perplexityFallbackModel.
  rewrite same_google, same_claude, same_perplexity_client. same. reflexivity.
Qed.

(** Resolution reads its environment through the effective settings
    only. *)
Lemma same_resolution requiresResearch claudeOverloaded :
  primaryProviderOf s1 p1 = primaryProviderOf s2 p2 ->
  getBestAvailableAIModel s1 p1 requiresResearch claudeOverloaded
  = getBestAvailableAIModel s2 p2 requiresResearch claudeOverloaded.
Proof.
  intros Hprim. unfold getBestAvailableAIModel, perplexityResearchModel.
  rewrite Hprim, same_google, same_claude, same_perplexity_client,
    same_default, same_overloaded.
  same. reflexivity.
Qed.
End SameSettings.

Lemma primary_of_env s1 p1 s2 p2 :
  env_or s1 p1 "AI_PROVIDER" = env_or s2 p2 "AI_PROVIDER" ->
  primaryProviderOf s1 p1 = primaryProviderOf s2 p2.
Proof. unfold primaryProviderOf. now intros ->. Qed.

Lemma toUpperCase_twice s : toUpperCase (toUpperCase s) = toUpperCase s.
Proof.
  induction s as [|c s IH]; [reflexivity|]. cbn [toUpperCase]. rewrite IH.
  f_equal. destruct c as [[] [] [] [] [] [] [] []]; reflexivity.
Qed.

Lemma toUpperCase_empty s : toUpperCase s = EmptyString <-> s = EmptyString.
Proof. destruct s; [tauto|]. split; discriminate. Qed.

Lemma truthy_some (v : string) : v <> EmptyString -> truthy (Some v) = Some v.
Proof. intros H. unfold truthy. now destruct (decide (v = "")). Qed.

(** X12: a setting present in the session environment hides the one of
    the process environment: resolution, its log included, is the same
    whatever process.env holds under that key. *)
Theorem session_setting_hides_process vars key v w pe p requiresResearch
    claudeOverloaded :
  vars !! key = Some v -> v <> EmptyString ->
  getBestAvailableAIModel (sessionOf vars)
    (withProcessEnv (<[key := w]> pe) p) requiresResearch claudeOverloaded
  = getBestAvailableAIModel (sessionOf vars) (withProcessEnv pe p)
      requiresResearch claudeOverloaded.
Proof.
  intros Hv Hne.
  assert (H : forall k,
    env_or (sessionOf vars) (withProcessEnv (<[key := w]> pe) p) k
    = env_or (sessionOf vars) (withProcessEnv pe p) k).
  { intros k. unfold env_or, session_env, sessionOf.
    cbn [mbind option_bind env process_env withProcessEnv].
    destruct (decide (k = key)) as [->|Hk].
    - rewrite Hv, (truthy_some _ Hne). reflexivity.
    - now rewrite lookup_insert_ne by congruence. }
  apply same_resolution; [auto | reflexivity | now apply primary_of_env].
Qed.

Lemma session_setting_hides_process_witness :
  getBestAvailableAIModel (sessionOf {[ "GOOGLE_API_KEY" := "g-session" ]})
    (withProcessEnv (<["GOOGLE_API_KEY" := "g-process"]> ∅) noKeys)
    false false
  = getBestAvailableAIModel (sessionOf {[ "GOOGLE_API_KEY" := "g-session" ]})
      (withProcessEnv ∅ noKeys) false false.
Proof.
  apply (session_setting_hides_process
           {[ "GOOGLE_API_KEY" := "g-session" ]} "GOOGLE_API_KEY"
           "g-session" "g-process" ∅ noKeys false false).
  - reflexivity.
  - discriminate.
Defined.

(** X13: a setting that is the empty string counts as not set: resolution
    is the same with the key removed from process.env. *)
Theorem empty_setting_is_unset session key pe p requiresResearch
    claudeOverloaded :
  getBestAvailableAIModel session
    (withProcessEnv (<[key := EmptyString]> pe) p)
    requiresResearch claudeOverloaded
  = getBestAvailableAIModel session (withProcessEnv (delete key pe) p)
      requiresResearch claudeOverloaded.
Proof.
  assert (H : forall k,
    env_or session (withProcessEnv (<[key := EmptyString]> pe) p) k
    = env_or session (withProcessEnv (delete key pe) p) k).
  { intros k. unfold env_or. cbn [process_env withProcessEnv].
    destruct (decide (k = key)) as [->|Hk].
    - now rewrite lookup_insert_eq, lookup_delete_eq.
    - now rewrite lookup_insert_ne, lookup_delete_ne by congruence. }
  apply same_resolution; [auto | reflexivity | now apply primary_of_env].
Qed.

(** X14: the name in AI_PROVIDER is read without regard to letter case:
    resolution is the same for a name and for its upper-case form. *)
Theorem provider_name_any_case vars v p requiresResearch claudeOverloaded :
  getBestAvailableAIModel (sessionOf (<["AI_PROVIDER" := v]> vars)) p
    requiresResearch claudeOverloaded
  = getBestAvailableAIModel
      (sessionOf (<["AI_PROVIDER" := toUpperCase v]> vars)) p
      requiresResearch claudeOverloaded.
Proof.
  apply same_resolution.
  - intros k Hk. unfold env_or, session_env, sessionOf.
    cbn [mbind option_bind env]. now rewrite !lookup_insert_ne by congruence.
  - reflexivity.
  - unfold primaryProviderOf, env_or, session_env, sessionOf.
    cbn [mbind option_bind env]. rewrite !lookup_insert_eq.
    destruct (decide (v = EmptyString)) as [->|Hv]; [reflexivity|].
    rewrite (truthy_some v Hv), truthy_some
      by (now rewrite toUpperCase_empty).
    cbn [fmap option_fmap option_map]. now rewrite toUpperCase_twice.
Qed.

(** X15: with nothing special asked and a primary of GOOGLE or
    ANTHROPIC, the configured family is bound when its key is set, the
    other family when only its key is set, and resolution fails only
    when neither key is set. *)
Theorem default_binds_primary_then_other session p :
  let r := fst (getBestAvailableAIModel session p false false) in
  let google := fst (googleModel session p) in
  let claude := fst (claudeModel session p "claude-3-7-sonnet-2025-02-19") in
  (primaryProviderOf session p = "GOOGLE" ->
   r = orElse google (orElse claude (Throw noPrimary)))
  /\ (primaryProviderOf session p = "ANTHROPIC" ->
      r = orElse claude (orElse google (Throw noPrimary)))
  /\ (primaryProviderOf session p = "GOOGLE"
      \/ primaryProviderOf session p = "ANTHROPIC" ->
      ((exists message, r = Throw message)
       <-> env_or session p "GOOGLE_API_KEY" = None
           /\ env_or session p "ANTHROPIC_API_KEY" = None)).
Proof.
  cbv zeta. rewrite best_result. cbv zeta. rewrite default_result. cbv zeta.
  split; [intros ->; reflexivity|]. split; [intros ->; reflexivity|].
  rewrite google_model, claude_model.
  intros [-> | ->]; cbn [String.eqb Ascii.eqb Bool.eqb andb];
    destruct (env_or session p "GOOGLE_API_KEY"),
      (env_or session p "ANTHROPIC_API_KEY"); cbn [orElse];
    (split; [intros [m [=]] | intros [[=] [=]]]; eauto).
Qed.

Lemma default_binds_primary_then_other_witness :
  fst (getBestAvailableAIModel None googleOnly false false)
  = orElse (fst (claudeModel None googleOnly "claude-3-7-sonnet-2025-02-19"))
      (orElse (fst (googleModel None googleOnly)) (Throw noPrimary)).
Proof.
  apply (default_binds_primary_then_other None googleOnly). reflexivity.
Defined.

(** X16: a primary, written in ASCII, that is neither GOOGLE nor ANTHROPIC
    is treated as Anthropic with no fallback: Claude is bound when the
    Anthropic key is set, and resolution fails otherwise, a Google key
    notwithstanding. *)
Theorem unknown_primary_has_no_fallback session p :
  (forall v, env_or session p "AI_PROVIDER" = Some v -> isAscii v = true) ->
  primaryProviderOf session p <> "GOOGLE" ->
  primaryProviderOf session p <> "ANTHROPIC" ->
  fst (getBestAvailableAIModel session p false false)
  = orElse (fst (claudeModel session p "claude-3-7-sonnet-2025-02-19"))
      (Throw noPrimary).
Proof.
  intros _ Hg Ha. rewrite best_result. cbv zeta. rewrite default_result.
  cbv zeta. apply String.eqb_neq in Hg, Ha. now rewrite Hg, Ha.
Qed.

Lemma unknown_primary_has_no_fallback_witness :
  let session := sessionOf {[ "AI_PROVIDER" := "openai" ]} in
  fst (getBestAvailableAIModel session googleOnly false false)
  = orElse (fst (claudeModel session googleOnly "claude-3-7-sonnet-2025-02-19"))
      (Throw noPrimary).
Proof.
  apply (unknown_primary_has_no_fallback
           (sessionOf {[ "AI_PROVIDER" := "openai" ]}) googleOnly).
  - intros v H. vm_compute in H. injection H as <-. reflexivity.
  - discriminate.
  - discriminate.
Defined.


(** X17: when research is requested and the Perplexity client can be
    built, Perplexity is bound at once: whatever else is configured or
    overloaded, and with nothing logged. *)
Theorem research_binds_perplexity session p claudeOverloaded apiKey :
  env_or session p "PERPLEXITY_API_KEY" = Some apiKey ->
  openai_import_error p = None ->
  getBestAvailableAIModel session p true claudeOverloaded
  = (Return [("type", VStr "perplexity");
             ("client", VClient (OpenAI apiKey "https://api.perplexity.ai"))],
     []).
Proof.
  intros Hk Hi. unfold getBestAvailableAIModel. cbv zeta. cbn [andb].
  rewrite Hk, (bool_decide_eq_true_2 _) by eauto. cbn [negb].
  unfold perplexityResearchModel, getPerplexityClientForMCP.
  rewrite Hk, Hi. reflexivity.
Qed.

Lemma research_binds_perplexity_witness :
  getBestAvailableAIModel None perplexityOnly true true
  = (Return [("type", VStr "perplexity");
             ("client", VClient (OpenAI "p-key" "https://api.perplexity.ai"))],
     []).
Proof.
  apply (research_binds_perplexity None perplexityOnly true "p-key");
    reflexivity.
Defined.

(** X18: when research is requested, the Perplexity key is set and the
    client cannot be built, resolution goes on as if no research had been
    asked: same outcome, and the same log after the two lines that report
    the failure. *)
Theorem research_failure_falls_through session p claudeOverloaded apiKey
    message :
  env_or session p "PERPLEXITY_API_KEY" = Some apiKey ->
  openai_import_error p = Some message ->
  let plain := getBestAvailableAIModel session p false claudeOverloaded in
  getBestAvailableAIModel session p true claudeOverloaded
  = (fst plain,
     [(ERROR, "Failed to initialize Perplexity client: " +:+ message);
      (WARN, "Perplexity not available: " +:+ message)] ++ snd plain).
Proof.
  intros Hk Hi. unfold getBestAvailableAIModel. cbv zeta. cbn [andb].
  rewrite (bool_decide_eq_true_2 (is_Some (env_or session p "PERPLEXITY_API_KEY")))
    by (rewrite Hk; eauto).
  cbn [negb].
  unfold perplexityResearchModel at 1, getPerplexityClientForMCP at 1.
  rewrite Hk, Hi.
  destruct (if claudeOverloaded then _ else _) as [r l]. reflexivity.
Qed.

Lemma research_failure_falls_through_witness :
  let p := {| process_env := {[ "PERPLEXITY_API_KEY" := "p-key" ]};
              openai_import_error := Some "Cannot find package 'openai'" |} in
  let plain := getBestAvailableAIModel None p false false in
  getBestAvailableAIModel None p true false
  = (fst plain,
     [(ERROR, "Failed to initialize Perplexity client: "
              +:+ "Cannot find package 'openai'");
      (WARN, "Perplexity not available: " +:+ "Cannot find package 'openai'")]
     ++ snd plain).
Proof.
  apply (research_failure_falls_through None
           {| process_env := {[ "PERPLEXITY_API_KEY" := "p-key" ]};
              openai_import_error := Some "Cannot find package 'openai'" |}
           false "p-key" "Cannot find package 'openai'"); reflexivity.
Defined.

(** X19: with MODEL unset, the model name that goes with Claude differs
    by path: claude-3-7-sonnet-20250219 on the research fallback,
    claude-3-7-sonnet-2025-02-19 on the default path. *)
Theorem claude_model_name_by_path session p :
  is_Some (env_or session p "ANTHROPIC_API_KEY") ->
  env_or session p "MODEL" = None ->
  env_or session p "PERPLEXITY_API_KEY" = None ->
  primaryProviderOf session p <> "GOOGLE" ->
  exists research plain,
    fst (getBestAvailableAIModel session p true false) = Return research
    /\ fst (getBestAvailableAIModel session p false false) = Return plain
    /\ get "type" research = Some (VStr "claude")
    /\ get "type" plain = Some (VStr "claude")
    /\ get "modelName" research = Some (VStr "claude-3-7-sonnet-20250219")
    /\ get "modelName" plain = Some (VStr "claude-3-7-sonnet-2025-02-19").
Proof.
  intros [k Hk] Hm Hp Hg. apply String.eqb_neq in Hg.
  rewrite !best_result. cbv zeta. rewrite default_result. cbv zeta.
  rewrite Hp, Hg, !claude_model, Hk, Hm. cbn [orElse default].
  eexists _, _. repeat split.
Qed.

Lemma claude_model_name_by_path_witness :
  exists research plain,
    fst (getBestAvailableAIModel None anthropicOnly true false)
    = Return research
    /\ fst (getBestAvailableAIModel None anthropicOnly false false)
       = Return plain
    /\ get "type" research = Some (VStr "claude")
    /\ get "type" plain = Some (VStr "claude")
    /\ get "modelName" research = Some (VStr "claude-3-7-sonnet-20250219")
    /\ get "modelName" plain = Some (VStr "claude-3-7-sonnet-2025-02-19").
Proof.
  apply (claude_model_name_by_path None anthropicOnly).
  - eexists. reflexivity.
  - reflexivity.
  - reflexivity.
  - discriminate.
Defined.

Section Bound.
Context (session : option Session) (p : Process).

Lemma google_bound h :
  fst (googleModel session p) = Return h -> boundFrom session p h.
Proof.
  rewrite google_model.
  destruct (env_or _ _ "GOOGLE_API_KEY") eqn:Hk; [|discriminate].
  intros [= <-]. left. split; [reflexivity|]. eauto.
Qed.

Lemma claude_bound name h :
  fst (claudeModel session p name) = Return h -> boundFrom session p h.
Proof.
  rewrite claude_model.
  destruct (env_or _ _ "ANTHROPIC_API_KEY") eqn:Hk; [|discriminate].
  intros [= <-]. right; left. split; [reflexivity|]. eauto.
Qed.

Lemma perplexity_fallback_bound h :
  fst (perplexityFallbackModel session p) = Return h -> boundFrom session p h.
Proof.
  rewrite perplexity_fallback_model.
  destruct (env_or _ _ "PERPLEXITY_API_KEY") eqn:Hk; [|discriminate].
  destruct (openai_import_error p) eqn:Hi; [discriminate|].
  intros [= <-]. right; right. split; [reflexivity|]. eauto.
Qed.

Lemma perplexity_research_bound h :
  fst (perplexityResearchModel session p) = Return h -> boundFrom session p h.
Proof.
  rewrite perplexity_research_model.
  destruct (env_or _ _ "PERPLEXITY_API_KEY") eqn:Hk; [|discriminate].
  destruct (openai_import_error p) eqn:Hi; [discriminate|].
  intros [= <-]. right; right. split; [reflexivity|]. eauto.
Qed.
End Bound.

(** X20: the handle a resolution returns names google, claude or
    perplexity, and its client is built from the key configured for that
    provider: no provider is bound whose key is not set, nor Perplexity
    when its client cannot be built. *)
Theorem bound_from_configured_key session p requiresResearch claudeOverloaded
    h :
  fst (getBestAvailableAIModel session p requiresResearch claudeOverloaded)
  = Return h ->
  boundFrom session p h.
Proof.
  rewrite best_result. cbv zeta. rewrite overloaded_result, default_result.
  cbv zeta. revert h.
  destruct requiresResearch, claudeOverloaded,
    (env_or session p "PERPLEXITY_API_KEY"),
    (String.eqb (primaryProviderOf session p) "GOOGLE"),
    (String.eqb (primaryProviderOf session p) "ANTHROPIC");
    repeat (apply orElse_returns;
            [first [ apply google_bound | apply claude_bound
                   | apply perplexity_fallback_bound
                   | apply perplexity_research_bound ]|]);
    apply throw_returns.
Qed.

Lemma bound_from_configured_key_witness :
  boundFrom None googleOnly
    [("type", VStr "google"); ("client", VClient (GoogleGenerativeAI "g-key"));
     ("modelName", VStr "gemini-2.5-pro-latest")].
Proof.
  apply (bound_from_configured_key None googleOnly false true). reflexivity.
Defined.

End AiClientUtilsExtra.

(** ** Error messages *)

Module ClaudeErrorsFacts.
Import ClaudeErrors.


Lemma toLowerCase_app a b :
  toLowerCase (a +:+ b) = toLowerCase a +:+ toLowerCase b.
Proof.
  induction a as [|c a IH]; [reflexivity|].
  change (String c a +:+ b) with (String c (a +:+ b)).
  cbn [toLowerCase]. rewrite IH. reflexivity.
Qed.

Lemma startsWithb_app sub rest : startsWithb sub (sub +:+ rest) = true.
Proof.
  induction sub as [|c sub IH]; [reflexivity|].
  change (String c sub +:+ rest) with (String c (sub +:+ rest)).
  cbn [startsWithb]. now rewrite Ascii.eqb_refl, IH.
Qed.

Lemma includes_app before sub rest :
  includes sub (before +:+ sub +:+ rest) = true.
Proof.
  induction before as [|c before IH].
  - change (EmptyString +:+ sub +:+ rest) with (sub +:+ rest).
    destruct (sub +:+ rest) eqn:E; cbn [includes]; rewrite <- E;
      now rewrite startsWithb_app.
  - change (String c before +:+ sub +:+ rest)
      with (String c (before +:+ sub +:+ rest)).
    cbn [includes]. rewrite IH. apply orb_true_r.
Qed.

Lemma includes_any_case word before inner rest :
  toLowerCase inner = word ->
  includes word (toLowerCase (before +:+ inner +:+ rest)) = true.
Proof.
  intros <-. rewrite !toLowerCase_app. apply includes_app.
Qed.

(** X21: for a structured error response (type error, with a body), the
    answer depends on the type of the body alone: one of three fixed
    sentences for overloaded_error, rate_limit_error and
    invalid_request_error, and the message of the body after
    Claude API error: otherwise. The message of the error itself is not
    read, even when it speaks of a timeout. *)
Theorem structured_error_by_type e api m :
  type e = Some "error" -> error e = Some api ->
  handleClaudeError (withMessage m e) = handleClaudeError e
  /\ (api_type api <> Some "overloaded_error" ->
      api_type api <> Some "rate_limit_error" ->
      api_type api <> Some "invalid_request_error" ->
      handleClaudeError e = "Claude API error: " +:+ shown (api_message api)).
Proof.
  intros Ht He. unfold handleClaudeError. cbn [withMessage type error].
  rewrite Ht, He.
  rewrite (bool_decide_eq_true_2 (Some "error" = Some "error")) by reflexivity.
  split; [reflexivity|]. intros H1 H2 H3.
  now rewrite (bool_decide_eq_false_2 _ H1), (bool_decide_eq_false_2 _ H2),
    (bool_decide_eq_false_2 _ H3).
Qed.

Lemma structured_error_by_type_witness :
  let api := {| api_type := Some "billing_error";
                api_message := Some "card declined" |} in
  let e := {| type := Some "error"; error := Some api;
              message := Some "timeout" |} in
  handleClaudeError (withMessage None e) = handleClaudeError e
  /\ (api_type api <> Some "overloaded_error" ->
      api_type api <> Some "rate_limit_error" ->
      api_type api <> Some "invalid_request_error" ->
      handleClaudeError e = "Claude API error: " +:+ shown (api_message api)).
Proof.
  apply (structured_error_by_type
           {| type := Some "error";
              error := Some {| api_type := Some "billing_error";
                               api_message := Some "card declined" |};
              message := Some "timeout" |}
           {| api_type := Some "billing_error";
              api_message := Some "card declined" |} None); reflexivity.
Defined.

(** X22: for an error that is not a structured response, a message that
    holds the word timeout, in any letter case and at any place, gives
    the timed-out sentence, also when the message speaks of the network
    as well. *)
Theorem timeout_in_any_case e before inner rest :
  type e <> Some "error" \/ error e = None ->
  message e = Some (before +:+ inner +:+ rest) ->
  toLowerCase inner = "timeout" ->
  handleClaudeError e = "The request to Claude timed out. Please try again.".
Proof.
  intros Hs Hm Hw. unfold handleClaudeError.
  assert (Hn : (if bool_decide (type e = Some "error") then error e else None)
               = None).
  { destruct Hs as [H| ->]; [now rewrite (bool_decide_eq_false_2 _ H)|].
    now destruct (bool_decide _). }
  rewrite Hn, Hm, (includes_any_case _ _ _ _ Hw). reflexivity.
Qed.

Lemma timeout_in_any_case_witness :
  handleClaudeError
    {| type := None; error := None;
       message := Some ("Network " +:+ "TimeOut" +:+ " after 30s") |}
  = "The request to Claude timed out. Please try again.".
Proof.
  apply (timeout_in_any_case
           {| type := None; error := None;
              message := Some ("Network " +:+ "TimeOut" +:+ " after 30s") |}
           "Network " "TimeOut" " after 30s").
  - left. discriminate.
  - reflexivity.
  - reflexivity.
Defined.

(** X23: for an error that is not a structured response, a message that
    holds the word network, in any letter case, and not the word timeout
    gives the network sentence. *)
Theorem network_without_timeout e m before inner rest :
  type e <> Some "error" \/ error e = None ->
  message e = Some m ->
  m = before +:+ inner +:+ rest ->
  toLowerCase inner = "network" ->
  includes "timeout" (toLowerCase m) = false ->
  handleClaudeError e
  = "There was a network error connecting to Claude. Please check your internet connection and try again.".
Proof.
  intros Hs Hm -> Hw Ht. unfold handleClaudeError.
  assert (Hn : (if bool_decide (type e = Some "error") then error e else None)
               = None).
  { destruct Hs as [H| ->]; [now rewrite (bool_decide_eq_false_2 _ H)|].
    now destruct (bool_decide _). }
  rewrite Hn, Hm, Ht, (includes_any_case _ _ _ _ Hw). reflexivity.
Qed.

Lemma network_without_timeout_witness :
  handleClaudeError
    {| type := Some "error"; error := None;
       message := Some ("fetch failed: " +:+ "NETWORK" +:+ " unreachable") |}
  = "There was a network error connecting to Claude. Please check your internet connection and try again.".
Proof.
  apply (network_without_timeout
           {| type := Some "error"; error := None;
              message := Some ("fetch failed: " +:+ "NETWORK"
                               +:+ " unreachable") |}
           ("fetch failed: " +:+ "NETWORK" +:+ " unreachable")
           "fetch failed: " "NETWORK" " unreachable").
  - right. reflexivity.
  - reflexivity.
  - reflexivity.
  - reflexivity.
  - reflexivity.
Defined.

End ClaudeErrorsFacts.

(** ** Model configuration *)

Module ModelConfigFacts.
Import AiClientUtils ExpandTask ModelConfig.


(** X24: MAX_TOKENS is read with parseInt and not checked: a setting whose
    first character is a character of ASCII that is neither white space,
    a sign nor a digit gives maxTokens = NaN, whatever the default is. *)
Theorem max_tokens_not_validated session defaults c rest :
  session_env session "MAX_TOKENS" = Some (String c rest) ->
  (N_of_ascii c < 128)%N ->
  is_whitespace c = false -> digit c = None ->
  c <> "-"%char -> c <> "+"%char ->
  maxTokens (getModelConfig session defaults) = NaN
  /\ maxTokens (getModelConfig session defaults)
     <> Int (default_maxTokens defaults).
Proof.
  intros Hs Hc Hw Hd Hm Hp.
  assert (H : maxTokens (getModelConfig session defaults) = NaN);
    [|rewrite H; split; [reflexivity|discriminate]].
  unfold getModelConfig. cbn [maxTokens]. rewrite Hs. cbn [truthy].
  destruct (decide _) as [|_]; [discriminate|].
  unfold parseIntText.
  rewrite (ExpandTaskExtra.skip_whitespace_ascii c rest Hc Hw).
  revert Hw Hd Hm Hp. clear Hs Hc.
  destruct c as [[] [] [] [] [] [] [] []]; intros Hw Hd Hm Hp;
    try discriminate; try (now destruct Hm); try (now destruct Hp);
    reflexivity.
Qed.

Lemma max_tokens_not_validated_witness :
  let session := Some {| env := Some {[ "MAX_TOKENS" := "lots" ]} |} in
  maxTokens (getModelConfig session DEFAULT_MODEL_CONFIG) = NaN
  /\ maxTokens (getModelConfig session DEFAULT_MODEL_CONFIG)
     <> Int (default_maxTokens DEFAULT_MODEL_CONFIG).
Proof.
  apply (max_tokens_not_validated
           (Some {| env := Some {[ "MAX_TOKENS" := "lots" ]} |})
           DEFAULT_MODEL_CONFIG "l" "ots");
    first [reflexivity | discriminate].
Defined.

End ModelConfigFacts.
